(** * PDF_QA_Bot: the RAG service of [rag-service/main.py]

    A shallow embedding of the FastAPI service: Python strings and the
    string operations the handlers use, the module's global state, the
    external libraries (LangChain, FAISS, transformers, torch) as a record
    of operations, and the three request handlers written in a state and
    exception monad. *)

From Stdlib Require Import NArith ZArith List Ascii String Lia Bool Btauto.
From Equations Require Import Equations.
From stdpp Require Import base option list gmap.
Import ListNotations.

Set Default Proof Using "Type".

(** ** Python strings

    A Python [str] is a sequence of Unicode code points. *)

Module PyStr.

Abbreviation str := (list N).

(** A source literal (all literals of [main.py] are ASCII). *)
Definition lit (s : string) : str := map N_of_ascii (list_ascii_of_string s).

(** The newline escape of the source literals. *)
Definition NL : str := [10%N].

(** [Py_UNICODE_ISSPACE]: the predicate behind [str.strip], [str.isspace]
    and the [\s] class of [re] on [str] patterns. *)
Definition isspace (c : N) : bool :=
  ((9 <=? c) && (c <=? 13)        (* \t \n \v \f \r *)
   || (28 <=? c) && (c <=? 32)    (* FS GS RS US and the space *)
   || (c =? 133) || (c =? 160)    (* NEL, NBSP *)
   || (c =? 5760)                 (* U+1680 *)
   || (8192 <=? c) && (c <=? 8202) (* U+2000 .. U+200A *)
   || (c =? 8232) || (c =? 8233)  (* U+2028, U+2029 *)
   || (c =? 8239) || (c =? 8287)  (* U+202F, U+205F *)
   || (c =? 12288))%N.            (* U+3000 *)

(** [s.lstrip()] *)
Fixpoint lstrip (s : str) : str :=
  match s with
  | [] => []
  | c :: t => if isspace c then lstrip t else s
  end.

(** [s.rstrip()] *)
Definition rstrip (s : str) : str := rev (lstrip (rev s)).

(** [s.strip()] *)
Definition strip (s : str) : str := rstrip (lstrip s).

(** Does [s] start with a whitespace character? *)
Definition starts_space (s : str) : bool :=
  match s with
  | [] => false
  | c :: _ => isspace c
  end.

(** [re.sub(r"\s{2,}", " ", s)]: scanning from the left, a position where
    at least two whitespace characters start is matched greedily (the whole
    run) and replaced by one space; any other character is copied. *)
Equations? re_sub_spaces (s : str) : str by wf (length s) lt :=
  re_sub_spaces [] := [];
  re_sub_spaces (c :: t) with (isspace c && starts_space t) => {
    | true := 32%N :: re_sub_spaces (lstrip t);
    | false := c :: re_sub_spaces t }.
Proof.
  all: simpl.
  all: assert (Hlen : forall u : str, length (lstrip u) <= length u)
         by (intros u; induction u as [|d u IH]; simpl;
             [|destruct (isspace d); simpl]; lia).
  all: pose proof (Hlen t); lia.
Qed.

(** [sep.join(parts)] *)
Fixpoint join (sep : str) (parts : list str) : str :=
  match parts with
  | [] => []
  | [p] => p
  | p :: rest => p ++ sep ++ join sep rest
  end.

(** [s.endswith(suffix)] *)
Definition endswith (s suffix : str) : bool :=
  bool_decide (drop (length s - length suffix) s = suffix).

(** [not l]: the empty sequence is the falsy one. *)
Definition is_empty {A} (l : list A) : bool :=
  match l with [] => true | _ => false end.

(** No two whitespace characters in a row. *)
Fixpoint no_space_run (s : str) : bool :=
  match s with
  | [] => true
  | c :: t => negb (isspace c && starts_space t) && no_space_run t
  end.

(** Does [s] end with a whitespace character? *)
Definition ends_space (s : str) : bool := starts_space (rev s).

End PyStr.
Import PyStr.

(** ** Values exchanged with the libraries *)

Abbreviation bytes := (list Byte.byte).

(** A LangChain [Document]. *)
Record Document := {
  page_content : str;
  metadata : list (str * str);
}.

(** The [BatchEncoding] a tokenizer returns: a dict from field name to a
    tensor of shape [1, n], kept as the row of token ids. *)
Abbreviation Encoding := (list (string * list Z)).

(** [d[key]] on a dict kept as an association list. *)
Fixpoint dict_get {V} (d : list (string * V)) (key : string) : option V :=
  match d with
  | [] => None
  | (k, v) :: rest => if String.eqb k key then Some v else dict_get rest key
  end.

(** A JSON object with string values, as the handlers return. *)
Abbreviation json := (list (string * str)).

(** The multipart upload: [file.filename] and what [file.read()] yields. *)
Record UploadFile := {
  filename : str;
  content : bytes;
}.

(** ** The external libraries

    Everything the module imports and calls.  A call that raises is
    [None]; the module never catches such an exception. *)

Record Library := {
  VectorStore : Type;
  Embeddings : Type;
  Tokenizer : Type;
  Model : Type;
  Config : Type;
  (* os *)
  getenv : str -> option str;
  open_wb : str -> option unit;
  (* langchain *)
  HuggingFaceEmbeddings : str -> Embeddings;
  PyPDFLoader_load : str -> bytes -> option (list Document);
  split_documents : nat -> nat -> list Document -> option (list Document);
  FAISS_from_documents : list Document -> Embeddings -> option VectorStore;
  similarity_search : VectorStore -> str -> nat -> option (list Document);
  (* transformers and torch *)
  AutoConfig_from_pretrained : str -> option Config;
  is_encoder_decoder : Config -> option bool;
  AutoTokenizer_from_pretrained : str -> option Tokenizer;
  AutoModelForSeq2SeqLM_from_pretrained : str -> option Model;
  AutoModelForCausalLM_from_pretrained : str -> option Model;
  cuda_is_available : bool;
  to_cuda : Model -> option Model;
  eval : Model -> Model;
  tokenizer_call : Tokenizer -> str -> nat -> option Encoding;
  pad_token_id : Tokenizer -> option Z;
  eos_token_id : Tokenizer -> option Z;
  generate : Model -> Encoding -> nat -> option Z -> option (list Z);
  decode : Tokenizer -> list Z -> option str;
}.

(** The library calls the service makes, in the order it makes them. *)
Inductive call :=
| call_open_wb (path : str)
| call_write (path : str) (data : bytes)
| call_PyPDFLoader_load (path : str)
| call_split_documents (docs : list Document)
| call_FAISS_from_documents (chunks : list Document)
| call_similarity_search (query : str) (k : nat)
| call_AutoConfig (name : str)
| call_AutoTokenizer (name : str)
| call_AutoModelForSeq2SeqLM (name : str)
| call_AutoModelForCausalLM (name : str)
| call_to_cuda
| call_tokenizer (prompt : str) (max_length : nat)
| call_generate (encoded : Encoding) (max_new_tokens : nat) (pad : option Z)
| call_decode (ids : list Z).

(** ** Exceptions and the handler monad *)

Inductive exception :=
| HTTPException (status_code : nat) (detail : str)
| LibraryError (c : call)
| TypeError
| KeyError (key : string)
| FileNotFoundError (path : str).

Inductive outcome (A : Type) :=
| Return (a : A)
| Raise (e : exception).
Arguments Return {A} a.
Arguments Raise {A} e.

Section Service.

Context (L : Library).

(** The module's globals, the files on disk, and the trace of library
    calls made so far. *)
Record State := {
  vectorstore : option (VectorStore L);
  generation_tokenizer : option (Tokenizer L);
  generation_model : option (Model L);
  generation_is_encoder_decoder : bool;
  files : gmap str bytes;
  calls : list call;
}.

Definition M (A : Type) : Type := State -> outcome A * State.

Definition ret {A} (a : A) : M A := fun s => (Return a, s).

Definition bind {A B} (m : M A) (k : A -> M B) : M B :=
  fun s => match m s with
           | (Return a, s') => k a s'
           | (Raise e, s') => (Raise e, s')
           end.

Definition raise {A} (e : exception) : M A := fun s => (Raise e, s).

Definition get : M State := fun s => (Return s, s).

Definition modify (f : State -> State) : M unit := fun s => (Return tt, f s).

#[global] Instance M_ret : MRet M := @ret.
#[global] Instance M_bind : MBind M := fun A B k m => bind m k.

(** Recording a library call in the trace. *)
Definition log (c : call) (s : State) : State :=
  {| vectorstore := vectorstore s;
     generation_tokenizer := generation_tokenizer s;
     generation_model := generation_model s;
     generation_is_encoder_decoder := generation_is_encoder_decoder s;
     files := files s;
     calls := calls s ++ [c] |}.

(** A call into a library: it is recorded, and raises when the library does.
    What a library does to the disk for itself (the download cache of
    [from_pretrained], say) is not part of [files]: [files] holds what the
    module itself writes. *)
Definition lib {A} (c : call) (r : option A) : M A :=
  fun s =>
    match r with
    | Some a => (Return a, log c s)
    | None => (Raise (LibraryError c), log c s)
    end.

(** Assignments to the globals. *)
Definition set_vectorstore (v : option (VectorStore L)) (s : State) : State :=
  {| vectorstore := v;
     generation_tokenizer := generation_tokenizer s;
     generation_model := generation_model s;
     generation_is_encoder_decoder := generation_is_encoder_decoder s;
     files := files s;
     calls := calls s |}.

Definition set_generation_tokenizer (t : option (Tokenizer L)) (s : State) : State :=
  {| vectorstore := vectorstore s;
     generation_tokenizer := t;
     generation_model := generation_model s;
     generation_is_encoder_decoder := generation_is_encoder_decoder s;
     files := files s;
     calls := calls s |}.

Definition set_generation_model (m : option (Model L)) (s : State) : State :=
  {| vectorstore := vectorstore s;
     generation_tokenizer := generation_tokenizer s;
     generation_model := m;
     generation_is_encoder_decoder := generation_is_encoder_decoder s;
     files := files s;
     calls := calls s |}.

Definition set_generation_is_encoder_decoder (b : bool) (s : State) : State :=
  {| vectorstore := vectorstore s;
     generation_tokenizer := generation_tokenizer s;
     generation_model := generation_model s;
     generation_is_encoder_decoder := b;
     files := files s;
     calls := calls s |}.

(** A write to the disk. *)
Definition set_file (path : str) (data : bytes) (s : State) : State :=
  {| vectorstore := vectorstore s;
     generation_tokenizer := generation_tokenizer s;
     generation_model := generation_model s;
     generation_is_encoder_decoder := generation_is_encoder_decoder s;
     files := <[path := data]> (files s);
     calls := calls s |}.

(** *** Module-level constants *)

(** [os.getenv("HF_GENERATION_MODEL", "google/flan-t5-base")] *)
Definition HF_GENERATION_MODEL : str :=
  default (lit "google/flan-t5-base") (getenv L (lit "HF_GENERATION_MODEL")).

Definition embedding_model : Embeddings L :=
  HuggingFaceEmbeddings L (lit "sentence-transformers/all-MiniLM-L6-v2").

(** The globals right after import, on a given disk. *)
Definition init (disk : gmap str bytes) : State :=
  {| vectorstore := None;
     generation_tokenizer := None;
     generation_model := None;
     generation_is_encoder_decoder := false;
     files := disk;
     calls := [] |}.

(** *** Loading the generation model *)

Definition load_generation_model : M (option (Tokenizer L) * Model L * bool) :=
  s ← get;
  match generation_model s with
  | Some model =>
      mret (generation_tokenizer s, model, generation_is_encoder_decoder s)
  | None =>
      config ← lib (call_AutoConfig HF_GENERATION_MODEL)
                   (AutoConfig_from_pretrained L HF_GENERATION_MODEL);
      (* bool(getattr(config, "is_encoder_decoder", False)) *)
      let flag := default false (is_encoder_decoder L config) in
      modify (set_generation_is_encoder_decoder flag);;
      tokenizer ← lib (call_AutoTokenizer HF_GENERATION_MODEL)
                      (AutoTokenizer_from_pretrained L HF_GENERATION_MODEL);
      modify (set_generation_tokenizer (Some tokenizer));;
      model ← (if flag
               then lib (call_AutoModelForSeq2SeqLM HF_GENERATION_MODEL)
                        (AutoModelForSeq2SeqLM_from_pretrained L HF_GENERATION_MODEL)
               else lib (call_AutoModelForCausalLM HF_GENERATION_MODEL)
                        (AutoModelForCausalLM_from_pretrained L HF_GENERATION_MODEL));
      modify (set_generation_model (Some model));;
      model ← (if cuda_is_available L
               then model' ← lib call_to_cuda (to_cuda L model);
                    modify (set_generation_model (Some model'));;
                    mret model'
               else mret model);
      (* generation_model.eval() switches the module to evaluation mode in place *)
      modify (set_generation_model (Some (eval L model)));;
      mret (Some tokenizer, eval L model, flag)
  end.

(** [a or b] on optional integers: [None] and [0] are falsy. *)
Definition py_or (a b : option Z) : option Z :=
  match a with
  | Some x => if (x =? 0)%Z then b else Some x
  | None => b
  end.

(** [generate_response(prompt, max_new_tokens)].  Moving the tensors to the
    model's device does not change their values and is left out; the
    constant keyword arguments [do_sample=False] and [temperature=0.0] are
    part of [generate]. *)
Definition generate_response (prompt : str) (max_new_tokens : nat) : M str :=
  loaded ← load_generation_model;
  let '(tokenizer, model, is_enc_dec) :=
    (loaded : option (Tokenizer L) * Model L * bool) in
  tokenizer ← match tokenizer return M (Tokenizer L) with
              | Some t => mret t
              | None => raise TypeError
              end;
  encoded ← lib (call_tokenizer prompt 2048) (tokenizer_call L tokenizer prompt 2048);
  let pad := py_or (pad_token_id L tokenizer) (eos_token_id L tokenizer) in
  generated_ids ← lib (call_generate encoded max_new_tokens pad)
                      (generate L model encoded max_new_tokens pad);
  text ← (if is_enc_dec
          then lib (call_decode generated_ids) (decode L tokenizer generated_ids)
          else
            input_ids ← match dict_get encoded "input_ids" return M (list Z) with
                        | Some ids => mret ids
                        | None => raise (KeyError "input_ids")
                        end;
            let input_len := length input_ids in
            let new_tokens := drop input_len generated_ids in
            lib (call_decode new_tokens) (decode L tokenizer new_tokens));
  mret (strip text).

(** *** Request models *)

Record AskRequest := { question : str }.

Inductive SummaryRequest := Build_SummaryRequest.

(** The [@validator("question")] of [AskRequest]. *)
Definition validate_question (v : str) : option str :=
  if is_empty (strip v) then None else Some (strip v).

(** Building an [AskRequest] from the request body: the [Field] bounds on
    the length, then the validator. *)
Definition AskRequest_parse (v : str) : option AskRequest :=
  if (1 <=? length v) && (length v <=? 2000)
  then q ← validate_question v; Some {| question := q |}
  else None.

(** *** [POST /upload]

    Opening the file can fail; reading the upload and writing it are taken
    to succeed once the file is open. *)

Definition upload_pdf (file : UploadFile) : M json :=
  (if negb (endswith (filename file) (lit ".pdf"))
   then raise (HTTPException 400 (lit "Only PDF files are allowed."))
   else mret tt);;
  let file_location := lit "temp_" ++ filename file in
  (* open(file_location, "wb") creates or truncates the file *)
  lib (call_open_wb file_location) (open_wb L file_location);;
  modify (set_file file_location []);;
  lib (call_write file_location (content file)) (Some tt);;
  modify (set_file file_location (content file));;
  s ← get;
  on_disk ← match files s !! file_location return M bytes with
            | Some data => mret data
            | None => raise (FileNotFoundError file_location)
            end;
  docs ← lib (call_PyPDFLoader_load file_location)
             (PyPDFLoader_load L file_location on_disk);
  chunks ← lib (call_split_documents docs) (split_documents L 800 150 docs);
  (if is_empty chunks
   then raise (HTTPException 400 (lit "No text found in PDF."))
   else mret tt);;
  vs ← lib (call_FAISS_from_documents chunks)
           (FAISS_from_documents L chunks embedding_model);
  modify (set_vectorstore (Some vs));;
  mret [("doc_id"%string, filename file)].

(** *** [POST /ask] *)

Definition ask_prompt (context query : str) : str :=
  lit "You are a helpful assistant answering ONLY from the context below." ++ NL ++ NL
  ++ lit "Context:" ++ NL ++ context ++ NL ++ NL
  ++ lit "Question: " ++ query ++ NL ++ lit "Answer:".

Definition ask_question (data : AskRequest) : M json :=
  s ← get;
  match vectorstore s with
  | None => mret [("answer"%string, lit "Please upload a PDF first.")]
  | Some vs =>
      let query := strip (question data) in
      docs ← lib (call_similarity_search query 6) (similarity_search L vs query 6);
      if is_empty docs
      then mret [("answer"%string, lit "Not found in document.")]
      else
        let context := join (NL ++ NL) (map page_content docs) in
        let prompt := ask_prompt context query in
        answer ← generate_response prompt 300;
        let answer := strip (re_sub_spaces answer) in
        mret [("answer"%string, answer)]
  end.

(** *** [POST /summarize] *)

Definition summarize_prompt (context : str) : str :=
  lit "Summarize the document in 6-8 concise bullet points." ++ NL ++ NL
  ++ lit "Context:" ++ NL ++ context ++ NL ++ NL ++ lit "Summary:".

Definition summarize_pdf (data : SummaryRequest) : M json :=
  s ← get;
  match vectorstore s with
  | None => mret [("summary"%string, lit "Please upload a PDF first.")]
  | Some vs =>
      let query := lit "Summarize the document" in
      docs ← lib (call_similarity_search query 8) (similarity_search L vs query 8);
      let context := join (NL ++ NL) (map page_content docs) in
      let prompt := summarize_prompt context in
      summary ← generate_response prompt 350;
      mret [("summary"%string, summary)]
  end.

(** *** The FastAPI application

    What the framework does with a handler's outcome: a returned dict is
    the body of a 200 response, an [HTTPException] is a response with its
    status code and a [detail] body, any other exception is a 500 (whose
    plain-text body is not kept).  A [request] is a request whose body has
    passed validation: the framework answers a body it cannot validate
    itself, before any handler runs. *)

Inductive request :=
| POST_upload (file : UploadFile)
| POST_ask (data : AskRequest)
| POST_summarize (data : SummaryRequest).

Record response := {
  status : nat;
  body : json;
}.

Definition handler (r : request) : M json :=
  match r with
  | POST_upload file => upload_pdf file
  | POST_ask data => ask_question data
  | POST_summarize data => summarize_pdf data
  end.

Definition respond (o : outcome json) : response :=
  match o with
  | Return d => {| status := 200; body := d |}
  | Raise (HTTPException code detail) =>
      {| status := code; body := [("detail"%string, detail)] |}
  | Raise _ => {| status := 500; body := [] |}
  end.

Definition serve (r : request) (s : State) : response * State :=
  let '(o, s') := handler r s in (respond o, s').

(** The process serving a sequence of requests. *)
Fixpoint run (rs : list request) (s : State) : list response * State :=
  match rs with
  | [] => ([], s)
  | r :: rest =>
      let '(resp, s') := serve r s in
      let '(resps, s'') := run rest s' in
      (resp :: resps, s'')
  end.

End Service.

Arguments vectorstore {L} s.
Arguments generation_tokenizer {L} s.
Arguments generation_model {L} s.
Arguments generation_is_encoder_decoder {L} s.
Arguments files {L} s.
Arguments calls {L} s.

(** ** Vocabulary of the statements *)

Section Vocabulary.

Context (L : Library).
Implicit Types s : State L.

(** The model class a configuration selects. *)
Definition from_pretrained_for (flag : bool) (name : str) : option (Model L) :=
  if flag then AutoModelForSeq2SeqLM_from_pretrained L name
  else AutoModelForCausalLM_from_pretrained L name.

(** Where the model ends up: on the GPU when there is one. *)
Definition placed (m : Model L) : option (Model L) :=
  if cuda_is_available L then to_cuda L m else Some m.

(** The library calls of a first, successful load. *)
Definition load_calls (flag : bool) : list call :=
  [call_AutoConfig (HF_GENERATION_MODEL L);
   call_AutoTokenizer (HF_GENERATION_MODEL L);
   if flag then call_AutoModelForSeq2SeqLM (HF_GENERATION_MODEL L)
   else call_AutoModelForCausalLM (HF_GENERATION_MODEL L)]
  ++ (if cuda_is_available L then [call_to_cuda] else []).

(** The recorded flag is the one of the model's configuration. *)
Definition flag_recorded s : Prop :=
  forall m, generation_model s = Some m ->
    exists cfg,
      AutoConfig_from_pretrained L (HF_GENERATION_MODEL L) = Some cfg
      /\ generation_is_encoder_decoder s = default false (is_encoder_decoder L cfg).

(** Two states with the same generation globals. *)
Definition same_generation s s' : Prop :=
  generation_tokenizer s' = generation_tokenizer s
  /\ generation_model s' = generation_model s
  /\ generation_is_encoder_decoder s' = generation_is_encoder_decoder s.

(** Where [upload_pdf] stores the upload. *)
Definition file_location (file : UploadFile) : str := lit "temp_" ++ filename file.

(** The state after the upload was written to disk. *)
Definition uploaded (file : UploadFile) s : State L :=
  set_file L (file_location file) (content file)
    (log L (call_write (file_location file) (content file))
       (set_file L (file_location file) []
          (log L (call_open_wb (file_location file)) s))).

(** Every way an upload can end. *)
Inductive upload_result (file : UploadFile) s : outcome json -> State L -> Prop :=
| upload_not_pdf :
    endswith (filename file) (lit ".pdf") = false ->
    upload_result file s
      (Raise (HTTPException 400 (lit "Only PDF files are allowed."))) s
| upload_open_failed :
    endswith (filename file) (lit ".pdf") = true ->
    open_wb L (file_location file) = None ->
    upload_result file s
      (Raise (LibraryError (call_open_wb (file_location file))))
      (log L (call_open_wb (file_location file)) s)
| upload_load_failed :
    endswith (filename file) (lit ".pdf") = true ->
    open_wb L (file_location file) = Some tt ->
    PyPDFLoader_load L (file_location file) (content file) = None ->
    upload_result file s
      (Raise (LibraryError (call_PyPDFLoader_load (file_location file))))
      (log L (call_PyPDFLoader_load (file_location file)) (uploaded file s))
| upload_split_failed docs :
    endswith (filename file) (lit ".pdf") = true ->
    open_wb L (file_location file) = Some tt ->
    PyPDFLoader_load L (file_location file) (content file) = Some docs ->
    split_documents L 800 150 docs = None ->
    upload_result file s
      (Raise (LibraryError (call_split_documents docs)))
      (log L (call_split_documents docs)
         (log L (call_PyPDFLoader_load (file_location file)) (uploaded file s)))
| upload_no_text docs :
    endswith (filename file) (lit ".pdf") = true ->
    open_wb L (file_location file) = Some tt ->
    PyPDFLoader_load L (file_location file) (content file) = Some docs ->
    split_documents L 800 150 docs = Some [] ->
    upload_result file s
      (Raise (HTTPException 400 (lit "No text found in PDF.")))
      (log L (call_split_documents docs)
         (log L (call_PyPDFLoader_load (file_location file)) (uploaded file s)))
| upload_index_failed docs chunks :
    endswith (filename file) (lit ".pdf") = true ->
    open_wb L (file_location file) = Some tt ->
    PyPDFLoader_load L (file_location file) (content file) = Some docs ->
    split_documents L 800 150 docs = Some chunks ->
    chunks <> [] ->
    FAISS_from_documents L chunks (embedding_model L) = None ->
    upload_result file s
      (Raise (LibraryError (call_FAISS_from_documents chunks)))
      (log L (call_FAISS_from_documents chunks)
         (log L (call_split_documents docs)
            (log L (call_PyPDFLoader_load (file_location file)) (uploaded file s))))
| upload_indexed docs chunks vs :
    endswith (filename file) (lit ".pdf") = true ->
    open_wb L (file_location file) = Some tt ->
    PyPDFLoader_load L (file_location file) (content file) = Some docs ->
    split_documents L 800 150 docs = Some chunks ->
    chunks <> [] ->
    FAISS_from_documents L chunks (embedding_model L) = Some vs ->
    upload_result file s
      (Return [("doc_id"%string, filename file)])
      (set_vectorstore L (Some vs)
         (log L (call_FAISS_from_documents chunks)
            (log L (call_split_documents docs)
               (log L (call_PyPDFLoader_load (file_location file)) (uploaded file s))))).

(** Two states with the same globals: they may differ in the files on
    disk and in the trace. *)
Definition agree s s' : Prop :=
  vectorstore s' = vectorstore s /\ same_generation s s'.

(** What a computation returns depends on the globals only, and so do
    the globals it leaves. *)
Definition respects {A} (m : M L A) : Prop :=
  forall s s', agree s s' ->
    fst (m s') = fst (m s) /\ agree (snd (m s)) (snd (m s')).

(** A computation that leaves the index and the disk alone. *)
Definition keeps_index {A} (m : M L A) : Prop :=
  forall s, vectorstore (snd (m s)) = vectorstore s /\ files (snd (m s)) = files s.

(** Applies [f] to a returned value and lets an exception through. *)
Definition outcome_map {A B} (f : A -> B) (o : outcome A) : outcome B :=
  match o with
  | Return a => Return (f a)
  | Raise e => Raise e
  end.

End Vocabulary.

(** ** The process and its failures *)

(** Was this exchange an upload answered with 200? *)
Definition upload_succeeded (exchange : request * response) : bool :=
  match exchange with
  | (POST_upload _, resp) => status resp =? 200
  | _ => false
  end.

(** The states the process can be in: some requests served since start. *)
Definition reachable (L : Library) (s : State L) : Prop :=
  exists disk rs, s = snd (run L rs (init L disk)).

(** The failures the endpoints test for themselves: a file name that is
    not a PDF's, a PDF without text, a question or a summary asked before
    any upload. *)
Definition handled_failure (L : Library) (r : request) (s : State L) : Prop :=
  match r with
  | POST_upload file =>
      endswith (filename file) (lit ".pdf") = false
      \/ (endswith (filename file) (lit ".pdf") = true
          /\ open_wb L (file_location file) = Some tt
          /\ exists docs,
               PyPDFLoader_load L (file_location file) (content file) = Some docs
               /\ split_documents L 800 150 docs = Some [])
  | POST_ask _ => vectorstore s = None
  | POST_summarize _ => vectorstore s = None
  end.

(** ** A small concrete library

    Stand-ins with the shape of the real libraries, to run the service on:
    the index is the list of chunks, a search returns its first [k] chunks,
    tokens are code points, and the model answers [reply] whatever it is
    asked (after the prompt, when it is a causal model). *)

Module Toy.

Definition bytes_to_str (data : bytes) : str := map Byte.to_N data.

Definition library (enc_dec : bool) (reply : str) : Library := {|
  VectorStore := list Document;
  Embeddings := unit;
  Tokenizer := unit;
  Model := unit;
  Config := bool;
  getenv := fun _ => None;
  open_wb := fun _ => Some tt;
  HuggingFaceEmbeddings := fun _ => tt;
  PyPDFLoader_load := fun path data =>
    Some (if is_empty data then []
          else [{| page_content := bytes_to_str data;
                   metadata := [(lit "source", path)] |}]);
  split_documents := fun _ _ docs => Some docs;
  FAISS_from_documents := fun chunks _ => Some chunks;
  similarity_search := fun vs _ k => Some (take k vs);
  AutoConfig_from_pretrained := fun _ => Some enc_dec;
  is_encoder_decoder := fun c => Some c;
  AutoTokenizer_from_pretrained := fun _ => Some tt;
  AutoModelForSeq2SeqLM_from_pretrained := fun _ => Some tt;
  AutoModelForCausalLM_from_pretrained := fun _ => Some tt;
  cuda_is_available := false;
  to_cuda := fun m => Some m;
  eval := fun m => m;
  tokenizer_call := fun _ prompt max_length =>
    Some [("input_ids"%string, map Z.of_N (take max_length prompt))];
  pad_token_id := fun _ => Some 0%Z;
  eos_token_id := fun _ => Some 1%Z;
  generate := fun _ encoded max_new_tokens _ =>
    Some ((if enc_dec then [] else default [] (dict_get encoded "input_ids"))
          ++ map Z.of_N (take max_new_tokens reply));
  decode := fun _ ids => Some (map Z.to_N ids);
|}.

(** An upload of a two-byte file named [a.pdf]. *)
Definition a_pdf : UploadFile :=
  {| filename := lit "a.pdf"; content := [Byte.x68; Byte.x69] |}.

(** The state with that file indexed. *)
Definition indexed (enc_dec : bool) (reply : str) : State (library enc_dec reply) :=
  snd (upload_pdf (library enc_dec reply) a_pdf (init (library enc_dec reply) ∅)).

End Toy.

(** ** Further vocabulary *)

(** The characters of [s] that are not whitespace, in order. *)
Definition non_space (s : str) : str :=
  List.filter (fun c => negb (isspace c)) s.

(** The calls that load or move the generation model. *)
Definition is_load_call (c : call) : bool :=
  match c with
  | call_AutoConfig _ | call_AutoTokenizer _
  | call_AutoModelForSeq2SeqLM _ | call_AutoModelForCausalLM _
  | call_to_cuda => true
  | _ => false
  end.


(** With a model stored, a tokenizer is stored too. *)
Definition tokenizer_recorded (L : Library) (s : State L) : Prop :=
  forall m, generation_model s = Some m -> is_Some (generation_tokenizer s).


(** [L] with another similarity search over the same indexes. *)
Definition with_similarity_search (L : Library)
    (search : VectorStore L -> str -> nat -> option (list Document)) : Library := {|
  VectorStore := VectorStore L;
  Embeddings := Embeddings L;
  Tokenizer := Tokenizer L;
  Model := Model L;
  Config := Config L;
  getenv := getenv L;
  open_wb := open_wb L;
  HuggingFaceEmbeddings := HuggingFaceEmbeddings L;
  PyPDFLoader_load := PyPDFLoader_load L;
  split_documents := split_documents L;
  FAISS_from_documents := FAISS_from_documents L;
  similarity_search := search;
  AutoConfig_from_pretrained := AutoConfig_from_pretrained L;
  is_encoder_decoder := is_encoder_decoder L;
  AutoTokenizer_from_pretrained := AutoTokenizer_from_pretrained L;
  AutoModelForSeq2SeqLM_from_pretrained := AutoModelForSeq2SeqLM_from_pretrained L;
  AutoModelForCausalLM_from_pretrained := AutoModelForCausalLM_from_pretrained L;
  cuda_is_available := cuda_is_available L;
  to_cuda := to_cuda L;
  eval := eval L;
  tokenizer_call := tokenizer_call L;
  pad_token_id := pad_token_id L;
  eos_token_id := eos_token_id L;
  generate := generate L;
  decode := decode L;
|}.

(** A search that finds the indexed chunks for the summary query and
    nothing for any other query. *)
Definition summary_only_search (vs : list Document) (query : str) (k : nat)
    : option (list Document) :=
  if bool_decide (query = lit "Summarize the document")
  then Some (take k vs) else Some [].

(** A library in which chosen calls raise: loading a PDF, building the
    index, loading the model, moving it to the GPU.  The rest is as in
    [Toy.library] for an encoder-decoder model. *)
Module Faulty.

Definition library (loader_ok index_ok model_ok has_cuda cuda_ok : bool)
    (reply : str) : Library := {|
  VectorStore := list Document;
  Embeddings := unit;
  Tokenizer := unit;
  Model := bool;
  Config := bool;
  getenv := fun _ => None;
  open_wb := fun _ => Some tt;
  HuggingFaceEmbeddings := fun _ => tt;
  PyPDFLoader_load := fun path data =>
    if loader_ok
    then Some (if is_empty data then []
               else [{| page_content := Toy.bytes_to_str data;
                        metadata := [(lit "source", path)] |}])
    else None;
  split_documents := fun _ _ docs => Some docs;
  FAISS_from_documents := fun chunks _ => if index_ok then Some chunks else None;
  similarity_search := fun vs _ k => Some (take k vs);
  AutoConfig_from_pretrained := fun _ => Some true;
  is_encoder_decoder := fun c => Some c;
  AutoTokenizer_from_pretrained := fun _ => Some tt;
  AutoModelForSeq2SeqLM_from_pretrained := fun _ =>
    if model_ok then Some false else None;
  AutoModelForCausalLM_from_pretrained := fun _ =>
    if model_ok then Some false else None;
  cuda_is_available := has_cuda;
  to_cuda := fun m => if cuda_ok then Some m else None;
  eval := fun _ => true;
  tokenizer_call := fun _ prompt max_length =>
    Some [("input_ids"%string, map Z.of_N (take max_length prompt))];
  pad_token_id := fun _ => Some 0%Z;
  eos_token_id := fun _ => Some 1%Z;
  generate := fun _ _ max_new_tokens _ =>
    Some (map Z.of_N (take max_new_tokens reply));
  decode := fun _ ids => Some (map Z.to_N ids);
|}.

End Faulty.

(** ** Proof support *)

(** Unfolds the monad so that a handler run on a state computes. *)
Ltac unfold_monad :=
  unfold mbind, mret, M_bind, M_ret, bind, ret, raise, get, modify, lib in *.

(** ** The model runs *)

Example strip_ex : strip (lit "  a b ") = lit "a b".
Proof. reflexivity. Qed.

Example re_sub_ex : re_sub_spaces (lit " a   b c  ") = lit " a b c ".
Proof. reflexivity. Qed.

Example endswith_ex : endswith (lit "x.pdf") (lit ".pdf") = true /\ endswith (lit "pdf") (lit ".pdf") = false.
Proof. split; reflexivity. Qed.

Example join_ex :
  join (NL ++ NL) [lit "a"; lit "b"] = lit "a" ++ NL ++ NL ++ lit "b"
  /\ join (NL ++ NL) [] = [].
Proof. split; reflexivity. Qed.

Example py_or_ex :
  py_or (Some 0%Z) (Some 1%Z) = Some 1%Z /\ py_or (Some 3%Z) (Some 1%Z) = Some 3%Z
  /\ py_or None (Some 1%Z) = Some 1%Z.
Proof. repeat split. Qed.

Example AskRequest_parse_ex :
  AskRequest_parse (lit "  why? ") = Some {| question := lit "why?" |}
  /\ AskRequest_parse (lit "   ") = None /\ AskRequest_parse [] = None.
Proof. repeat split. Qed.

Example toy_upload :
  fst (upload_pdf (Toy.library true []) Toy.a_pdf (init _ ∅))
  = Return [("doc_id"%string, lit "a.pdf")].
Proof. vm_compute. reflexivity. Qed.

Example toy_ask :
  fst (ask_question (Toy.library false (lit " yes  it is ")) {| question := lit " q? " |}
         (Toy.indexed false (lit " yes  it is ")))
  = Return [("answer"%string, lit "yes it is")].
Proof. vm_compute. reflexivity. Qed.

(** ** Loading and generation *)

Section Loading.

Context (L : Library).
Implicit Types s : State L.

(** Once a model is stored, loading returns the stored globals and
    changes nothing, not even the trace of library calls. *)
Lemma load_generation_model_cached s m :
  generation_model s = Some m ->
  load_generation_model L s
  = (Return (generation_tokenizer s, m, generation_is_encoder_decoder s), s).
Proof.
  intros Hm. unfold load_generation_model. unfold_monad. simpl.
  rewrite Hm. reflexivity.
Qed.

Lemma load_generation_model_first s cfg tok m m' :
  generation_model s = None ->
  AutoConfig_from_pretrained L (HF_GENERATION_MODEL L) = Some cfg ->
  AutoTokenizer_from_pretrained L (HF_GENERATION_MODEL L) = Some tok ->
  from_pretrained_for L (default false (is_encoder_decoder L cfg)) (HF_GENERATION_MODEL L) = Some m ->
  placed L m = Some m' ->
  let flag := default false (is_encoder_decoder L cfg) in
  load_generation_model L s
  = (Return (Some tok, eval L m', flag),
     {| vectorstore := vectorstore s;
        generation_tokenizer := Some tok;
        generation_model := Some (eval L m');
        generation_is_encoder_decoder := flag;
        files := files s;
        calls := calls s ++ load_calls L flag |}).
Proof.
  intros Hnone Hcfg Htok Hm Hp flag.
  unfold load_generation_model, from_pretrained_for, placed, load_calls in *.
  unfold_monad. simpl. rewrite Hnone, Hcfg. simpl. rewrite Htok. simpl.
  fold flag in Hm |- *.
  destruct flag; rewrite Hm; simpl;
    destruct (cuda_is_available L); simpl;
    first [injection Hp as <- | rewrite Hp]; unfold log; simpl;
    rewrite <- ?app_assoc; reflexivity.
Qed.

End Loading.

Section Generation.

Context (L : Library).
Implicit Types s : State L.

(** A generation in which no library call raises: the text is decoded
    from the whole output for an encoder-decoder model and from the tokens
    after the prompt for a causal one, then stripped. *)
Lemma generate_response_ok s s1 tok m flag prompt n enc input_ids ids text :
  load_generation_model L s = (Return (Some tok, m, flag), s1) ->
  tokenizer_call L tok prompt 2048 = Some enc ->
  (flag = false -> dict_get enc "input_ids" = Some input_ids) ->
  let pad := py_or (pad_token_id L tok) (eos_token_id L tok) in
  generate L m enc n pad = Some ids ->
  let decoded := if flag then ids else drop (length input_ids) ids in
  decode L tok decoded = Some text ->
  generate_response L prompt n s
  = (Return (strip text),
     log L (call_decode decoded)
       (log L (call_generate enc n pad) (log L (call_tokenizer prompt 2048) s1))).
Proof.
  intros Hload Henc Hids pad Hgen decoded Hdec.
  unfold generate_response. unfold_monad. rewrite Hload. simpl.
  rewrite Henc. simpl. fold pad. rewrite Hgen. simpl.
  subst decoded. destruct flag; simpl.
  - rewrite Hdec. reflexivity.
  - rewrite (Hids eq_refl). simpl. rewrite Hdec. reflexivity.
Qed.

Lemma flag_recorded_same s s' :
  same_generation L s s' -> flag_recorded L s -> flag_recorded L s'.
Proof.
  intros (_ & Hm & Hf) Hs m Hm'. rewrite Hm in Hm'.
  destruct (Hs m Hm') as (cfg & ? & ?). exists cfg. rewrite Hf. auto.
Qed.

Lemma load_generation_model_flag_recorded s :
  flag_recorded L s -> flag_recorded L (snd (load_generation_model L s)).
Proof.
  intros Hs. unfold load_generation_model. unfold_monad. simpl.
  destruct (generation_model s) eqn:Hm; [exact Hs|].
  destruct (AutoConfig_from_pretrained L (HF_GENERATION_MODEL L)) as [cfg|] eqn:Hcfg; simpl;
    [|intros m; simpl; congruence].
  destruct (AutoTokenizer_from_pretrained L (HF_GENERATION_MODEL L)); simpl;
    [|intros m; simpl; congruence].
  assert (Hgoal : forall s' : State L,
    generation_is_encoder_decoder s' = default false (is_encoder_decoder L cfg) ->
    flag_recorded L s').
  { intros s' Hf m _. exists cfg. auto. }
  repeat (case_match; simpl in *; simplify_eq; try (apply Hgoal; reflexivity)).
Qed.

Lemma generate_response_flag_recorded prompt n s :
  flag_recorded L s -> flag_recorded L (snd (generate_response L prompt n s)).
Proof.
  intros Hs. apply load_generation_model_flag_recorded in Hs.
  unfold generate_response. unfold_monad.
  destruct (load_generation_model L s) as [[[[tok m] flag]|e] s1]; simpl in *; [|exact Hs].
  repeat (case_match; simpl in *; simplify_eq);
    (eapply flag_recorded_same; [|exact Hs]); repeat split.
Qed.

End Generation.

(** ** The handlers *)

Section Handlers.

Context (L : Library).
Implicit Types s : State L.

Lemma uploaded_lookup file s :
  files (uploaded L file s) !! file_location file = Some (content file).
Proof. unfold uploaded. simpl. apply lookup_insert_eq. Qed.

Lemma uploaded_files file s :
  files (uploaded L file s) = <[file_location file := content file]> (files s).
Proof. unfold uploaded. simpl. apply insert_insert_eq. Qed.

Lemma upload_pdf_result file s :
  upload_result L file s (fst (upload_pdf L file s)) (snd (upload_pdf L file s)).
Proof.
  unfold upload_pdf. unfold_monad. fold (file_location file).
  destruct (endswith (filename file) (lit ".pdf")) eqn:Hpdf; simpl;
    [|by apply upload_not_pdf].
  destruct (open_wb L (file_location file)) as [[]|] eqn:Hopen; simpl;
    [|by apply upload_open_failed].
  rewrite lookup_insert_eq. fold (uploaded L file s). simpl.
  destruct (PyPDFLoader_load L (file_location file) (content file)) as [docs|] eqn:Hload;
    simpl; [|by apply upload_load_failed].
  destruct (split_documents L 800 150 docs) as [chunks|] eqn:Hsplit; simpl;
    [|by eapply upload_split_failed].
  destruct chunks as [|chunk chunks]; simpl; [by eapply upload_no_text|].
  destruct (FAISS_from_documents L (chunk :: chunks) (embedding_model L)) as [vs|] eqn:Hvs;
    simpl; [by eapply upload_indexed | by eapply upload_index_failed].
Qed.

Lemma agree_refl s : agree L s s.
Proof. repeat split. Qed.

Lemma agree_log c s s' : agree L s s' -> agree L s (log L c s').
Proof. intros H. exact H. Qed.

Lemma respects_ret {A} (a : A) : respects L (mret a).
Proof. intros s s' H. split; [reflexivity | exact H]. Qed.

Lemma respects_raise {A} e : respects L (raise L e : M L A).
Proof. intros s s' H. split; [reflexivity | exact H]. Qed.

Lemma respects_lib {A} c (r : option A) : respects L (lib L c r).
Proof. intros s s' H. unfold lib. destruct r; split; try reflexivity; exact H. Qed.

Lemma respects_bind {A B} (m : M L A) (k : A -> M L B) :
  respects L m -> (forall a, respects L (k a)) -> respects L (m ≫= k).
Proof.
  intros Hm Hk s s' H. unfold_monad.
  destruct (Hm s s' H) as [Hfst Hsnd].
  destruct (m s) as [[a|e] s1], (m s') as [[a'|e'] s1']; simpl in *;
    simplify_eq; auto.
  apply Hk; assumption.
Qed.

Lemma respects_modify (f : State L -> State L) :
  (forall s s', agree L s s' -> agree L (f s) (f s')) -> respects L (modify L f).
Proof. intros Hf s s' H. split; [reflexivity | apply Hf, H]. Qed.

(** Reading the globals: the continuation may only look at them. *)
Lemma respects_get {A} (k : State L -> M L A) :
  (forall s0 s0', agree L s0 s0' -> forall s s', agree L s s' ->
     fst (k s0' s') = fst (k s0 s) /\ agree L (snd (k s0 s)) (snd (k s0' s'))) ->
  respects L (get L ≫= k).
Proof. intros Hk s s' H. unfold_monad. apply Hk; assumption. Qed.

(** Folds a goal about two runs of one computation back into [respects]. *)
Ltac as_respects s s' H :=
  match goal with
  | |- fst (?m s') = fst (?m s) /\ _ => revert s s' H; change (respects L m)
  end.

Lemma respects_load_generation_model : respects L (load_generation_model L).
Proof.
  unfold load_generation_model. apply respects_get.
  intros s0 s0' (Hv0 & Ht0 & Hm0 & Hf0) s s' H.
  rewrite Ht0, Hm0, Hf0.
  destruct (generation_model s0); as_respects s s' H; [apply respects_ret|].
  repeat first
    [ apply respects_bind; [|intros ?]
    | apply respects_lib
    | apply respects_ret
    | apply respects_modify; intros ? ? (? & ? & ? & ?); repeat split; simpl; assumption
    | case_match ].
Qed.

Lemma respects_generate_response prompt n : respects L (generate_response L prompt n).
Proof.
  unfold generate_response.
  apply respects_bind; [apply respects_load_generation_model|].
  intros [[tok m] flag].
  repeat first
    [ apply respects_bind; [|intros ?]
    | apply respects_lib
    | apply respects_ret
    | apply respects_raise
    | case_match ].
Qed.

Lemma respects_ask_question data : respects L (ask_question L data).
Proof.
  unfold ask_question. apply respects_get.
  intros s0 s0' (Hv0 & _) s s' H. rewrite Hv0.
  destruct (vectorstore s0); as_respects s s' H; [|apply respects_ret].
  apply respects_bind; [apply respects_lib|]. intros docs.
  destruct (is_empty docs); [apply respects_ret|].
  apply respects_bind; [apply respects_generate_response|].
  intros ?. apply respects_ret.
Qed.

Lemma respects_summarize_pdf data : respects L (summarize_pdf L data).
Proof.
  unfold summarize_pdf. apply respects_get.
  intros s0 s0' (Hv0 & _) s s' H. rewrite Hv0.
  destruct (vectorstore s0); as_respects s s' H; [|apply respects_ret].
  apply respects_bind; [apply respects_lib|]. intros docs.
  apply respects_bind; [apply respects_generate_response|].
  intros ?. apply respects_ret.
Qed.

Lemma keeps_index_ret {A} (a : A) : keeps_index L (mret a).
Proof. intros s. split; reflexivity. Qed.

Lemma keeps_index_raise {A} e : keeps_index L (raise L e : M L A).
Proof. intros s. split; reflexivity. Qed.

Lemma keeps_index_lib {A} c (r : option A) : keeps_index L (lib L c r).
Proof. intros s. unfold lib. destruct r; split; reflexivity. Qed.

Lemma keeps_index_bind {A B} (m : M L A) (k : A -> M L B) :
  keeps_index L m -> (forall a, keeps_index L (k a)) -> keeps_index L (m ≫= k).
Proof.
  intros Hm Hk s. unfold_monad. destruct (Hm s) as [Hv Hf].
  destruct (m s) as [[a|e] s1]; simpl in *; [|auto].
  destruct (Hk a s1) as [Hv' Hf']. rewrite Hv', Hf'. auto.
Qed.

Lemma keeps_index_get {A} (k : State L -> M L A) :
  (forall s0, keeps_index L (k s0)) -> keeps_index L (get L ≫= k).
Proof. intros Hk s. unfold_monad. apply Hk. Qed.

Lemma keeps_index_modify (f : State L -> State L) :
  (forall s, vectorstore (f s) = vectorstore s /\ files (f s) = files s) ->
  keeps_index L (modify L f).
Proof. intros Hf s. apply Hf. Qed.

(** Runs the frame rules through a handler body. *)
Ltac keeps_index_steps :=
  repeat first
    [ case_match
    | apply keeps_index_lib
    | apply keeps_index_ret
    | apply keeps_index_raise
    | apply keeps_index_modify; intros ?; split; reflexivity
    | apply keeps_index_bind; [|intros ?] ].

Lemma keeps_index_load_generation_model : keeps_index L (load_generation_model L).
Proof.
  unfold load_generation_model. apply keeps_index_get. intros s0.
  keeps_index_steps.
Qed.

Lemma keeps_index_generate_response prompt n :
  keeps_index L (generate_response L prompt n).
Proof.
  unfold generate_response.
  apply keeps_index_bind; [apply keeps_index_load_generation_model|].
  intros [[tok m] flag]. keeps_index_steps.
Qed.

Lemma keeps_index_ask_question data : keeps_index L (ask_question L data).
Proof.
  unfold ask_question. apply keeps_index_get. intros s0.
  destruct (vectorstore s0); [|apply keeps_index_ret].
  apply keeps_index_bind; [apply keeps_index_lib|]. intros docs.
  destruct (is_empty docs); [apply keeps_index_ret|].
  apply keeps_index_bind; [apply keeps_index_generate_response|].
  intros ?. apply keeps_index_ret.
Qed.

Lemma keeps_index_summarize_pdf data : keeps_index L (summarize_pdf L data).
Proof.
  unfold summarize_pdf. apply keeps_index_get. intros s0.
  destruct (vectorstore s0); [|apply keeps_index_ret].
  apply keeps_index_bind; [apply keeps_index_lib|]. intros docs.
  apply keeps_index_bind; [apply keeps_index_generate_response|].
  intros ?. apply keeps_index_ret.
Qed.

(** *** The handlers, case by case *)

Lemma ask_question_no_index data s :
  vectorstore s = None ->
  ask_question L data s
  = (Return [("answer"%string, lit "Please upload a PDF first.")], s).
Proof. intros H. unfold ask_question. unfold_monad. rewrite H. reflexivity. Qed.

Lemma ask_question_not_found data s vs :
  vectorstore s = Some vs ->
  similarity_search L vs (strip (question data)) 6 = Some [] ->
  ask_question L data s
  = (Return [("answer"%string, lit "Not found in document.")],
     log L (call_similarity_search (strip (question data)) 6) s).
Proof.
  intros Hvs Hdocs. unfold ask_question. unfold_monad.
  rewrite Hvs. cbv beta iota zeta. rewrite Hdocs. reflexivity.
Qed.

Lemma ask_question_generates data s vs docs :
  vectorstore s = Some vs ->
  similarity_search L vs (strip (question data)) 6 = Some docs ->
  docs <> [] ->
  let query := strip (question data) in
  let context := join (NL ++ NL) (map page_content docs) in
  let generated :=
    generate_response L (ask_prompt context query) 300
      (log L (call_similarity_search query 6) s) in
  ask_question L data s
  = (outcome_map
       (fun text => [("answer"%string, strip (re_sub_spaces text))])
       (fst generated),
     snd generated).
Proof.
  intros Hvs Hdocs Hne query context generated.
  subst generated context query.
  unfold ask_question. unfold_monad. rewrite Hvs. cbv beta iota zeta.
  rewrite Hdocs. cbv beta iota zeta.
  destruct docs as [|d docs]; [done|]. unfold is_empty.
  destruct (generate_response _ _ _ _) as [[text|e] s']; reflexivity.
Qed.

Lemma summarize_pdf_no_index data s :
  vectorstore s = None ->
  summarize_pdf L data s
  = (Return [("summary"%string, lit "Please upload a PDF first.")], s).
Proof. intros H. unfold summarize_pdf. unfold_monad. rewrite H. reflexivity. Qed.

Lemma summarize_pdf_generates data s vs docs :
  vectorstore s = Some vs ->
  similarity_search L vs (lit "Summarize the document") 8 = Some docs ->
  let context := join (NL ++ NL) (map page_content docs) in
  let generated :=
    generate_response L (summarize_prompt context) 350
      (log L (call_similarity_search (lit "Summarize the document") 8) s) in
  summarize_pdf L data s
  = (outcome_map (fun summary => [("summary"%string, summary)]) (fst generated),
     snd generated).
Proof.
  intros Hvs Hdocs context generated.
  subst generated context.
  unfold summarize_pdf. unfold_monad. rewrite Hvs. cbv beta iota zeta.
  rewrite Hdocs. cbv beta iota zeta.
  destruct (generate_response _ _ _ _) as [[text|e] s']; reflexivity.
Qed.

End Handlers.

(** ** Facts about the string operations *)

Section StringFacts.

Implicit Types s t : str.

Lemma starts_space_lstrip s : starts_space (lstrip s) = false.
Proof.
  induction s as [|c t IH]; simpl; [reflexivity|].
  destruct (isspace c) eqn:Hc; simpl; [exact IH | exact Hc].
Qed.

(** [lstrip] removes a prefix made of whitespace. *)
Lemma lstrip_split s :
  exists w, s = w ++ lstrip s /\ forallb isspace w = true.
Proof.
  induction s as [|c t (w & Hw & Hall)]; simpl.
  - exists []. split; reflexivity.
  - destruct (isspace c) eqn:Hc.
    + exists (c :: w). simpl. rewrite Hc, Hall. split; [congruence | reflexivity].
    + exists []. split; reflexivity.
Qed.

Lemma lstrip_id s : starts_space s = false -> lstrip s = s.
Proof. destruct s as [|c t]; simpl; [reflexivity|]. intros ->. reflexivity. Qed.

Lemma lstrip_spaces_app w t :
  forallb isspace w = true -> lstrip (w ++ t) = lstrip t.
Proof.
  induction w as [|c w IH]; simpl; [reflexivity|].
  intros [Hc Hw]%andb_prop. rewrite Hc. auto.
Qed.

Lemma starts_space_app s t :
  s <> [] -> starts_space (s ++ t) = starts_space s.
Proof. destruct s; [done | reflexivity]. Qed.

Lemma starts_space_re_sub_spaces s :
  starts_space (re_sub_spaces s) = starts_space s.
Proof.
  destruct s as [|c t]; [reflexivity|]. simp re_sub_spaces.
  destruct (isspace c && starts_space t) eqn:Hrun; simpl.
  - apply andb_prop in Hrun as [-> _]. reflexivity.
  - reflexivity.
Qed.

(** The substitution leaves no run of whitespace. *)
Lemma no_space_run_re_sub_spaces s : no_space_run (re_sub_spaces s) = true.
Proof.
  funelim (re_sub_spaces s); simp re_sub_spaces; [reflexivity| |].
  - cbn [no_space_run].
    rewrite starts_space_re_sub_spaces, starts_space_lstrip, H. reflexivity.
  - cbn [no_space_run].
    rewrite starts_space_re_sub_spaces, Heq, H. reflexivity.
Qed.

Lemma no_space_run_lstrip s : no_space_run s = true -> no_space_run (lstrip s) = true.
Proof.
  induction s as [|c t IH]; [done|].
  intros H. cbn [lstrip]. destruct (isspace c); [|exact H].
  apply IH. cbn [no_space_run] in H. apply andb_prop in H as [_ Ht]. exact Ht.
Qed.

Lemma ends_space_cons c s : s <> [] -> ends_space (c :: s) = ends_space s.
Proof.
  intros Hs. unfold ends_space. simpl. apply starts_space_app.
  intros Hrev. apply Hs. rewrite <- (rev_involutive s), Hrev. reflexivity.
Qed.

Lemma no_space_run_app s t :
  no_space_run (s ++ t)
  = no_space_run s && no_space_run t && negb (ends_space s && starts_space t).
Proof.
  induction s as [|c s IH].
  - simpl. rewrite andb_true_r. reflexivity.
  - destruct s as [|d s].
    + unfold ends_space. simpl.
      destruct (isspace c), (starts_space t), (no_space_run t); reflexivity.
    + rewrite ends_space_cons by done.
      change ((c :: d :: s) ++ t) with (c :: (d :: s) ++ t).
      cbn [no_space_run]. rewrite IH, starts_space_app by done.
      cbn [no_space_run]. btauto.
Qed.

Lemma no_space_run_rev s : no_space_run (rev s) = no_space_run s.
Proof.
  induction s as [|c t IH]; simpl; [reflexivity|].
  rewrite no_space_run_app, IH. unfold ends_space. rewrite rev_involutive. simpl.
  destruct (no_space_run t), (starts_space t), (isspace c); reflexivity.
Qed.

Lemma no_space_run_strip s : no_space_run s = true -> no_space_run (strip s) = true.
Proof.
  intros H. unfold strip, rstrip. rewrite no_space_run_rev.
  apply no_space_run_lstrip. rewrite no_space_run_rev.
  apply no_space_run_lstrip, H.
Qed.

(** [rstrip] keeps a prefix, so it cannot uncover a leading space. *)
Lemma starts_space_rstrip s : starts_space s = false -> starts_space (rstrip s) = false.
Proof.
  intros H. unfold rstrip.
  destruct (lstrip_split (rev s)) as (w & Hw & _).
  apply (f_equal (@rev N)) in Hw. rewrite rev_involutive, rev_app_distr in Hw.
  destruct (rev (lstrip (rev s))) as [|c u]; [reflexivity|].
  rewrite Hw in H. exact H.
Qed.

Lemma starts_space_strip s : starts_space (strip s) = false.
Proof. apply starts_space_rstrip, starts_space_lstrip. Qed.

Lemma ends_space_strip s : ends_space (strip s) = false.
Proof.
  unfold ends_space, strip, rstrip. rewrite rev_involutive.
  apply starts_space_lstrip.
Qed.

Lemma strip_idemp s : strip (strip s) = strip s.
Proof.
  unfold strip at 1. rewrite (lstrip_id (strip s)) by apply starts_space_strip.
  unfold rstrip. rewrite lstrip_id by apply ends_space_strip.
  apply rev_involutive.
Qed.

(** A request body that passes validation carries a stripped, non-empty
    question, which the handler's own [strip] leaves as it is. *)
Lemma AskRequest_parse_stripped v data :
  AskRequest_parse v = Some data ->
  question data = strip v
  /\ question data <> []
  /\ strip (question data) = question data.
Proof.
  unfold AskRequest_parse, validate_question.
  destruct (_ && _); [|discriminate].
  destruct (strip v) as [|c q] eqn:Hv; simpl; [discriminate|].
  intros [= <-]. simpl. split; [reflexivity|]. split; [discriminate|].
  rewrite <- Hv. apply strip_idemp.
Qed.

(** The normal form the [/ask] handler gives its answers. *)
Lemma strip_re_sub_spaces_normal s :
  let a := strip (re_sub_spaces s) in
  no_space_run a = true /\ starts_space a = false /\ ends_space a = false.
Proof.
  split; [|split].
  - apply no_space_run_strip, no_space_run_re_sub_spaces.
  - apply starts_space_strip.
  - apply ends_space_strip.
Qed.

Lemma re_sub_spaces_cons_run c t :
  isspace c && starts_space t = true ->
  re_sub_spaces (c :: t) = 32%N :: re_sub_spaces (lstrip t).
Proof. intros H. simp re_sub_spaces. rewrite H. reflexivity. Qed.

Lemma re_sub_spaces_cons_copy c t :
  isspace c && starts_space t = false ->
  re_sub_spaces (c :: t) = c :: re_sub_spaces t.
Proof. intros H. simp re_sub_spaces. rewrite H. reflexivity. Qed.

Lemma ends_space_app s t : t <> [] -> ends_space (s ++ t) = ends_space t.
Proof.
  intros Ht. unfold ends_space. rewrite rev_app_distr. apply starts_space_app.
  intros Hrev. apply Ht. rewrite <- (rev_involutive t), Hrev. reflexivity.
Qed.

Lemma ends_space_spaces w :
  forallb isspace w = true -> w <> [] -> ends_space w = true.
Proof.
  induction w as [|c w IH]; [done|]. simpl. intros [Hc Hw]%andb_prop _.
  destruct w as [|d w]; [exact Hc|].
  rewrite ends_space_cons by done. apply IH; [exact Hw | done].
Qed.

(** Stripping on the left commutes with appending, for a string that does
    not end with whitespace. *)
Lemma lstrip_app s t :
  s <> [] -> ends_space s = false ->
  lstrip s <> [] /\ ends_space (lstrip s) = false
  /\ lstrip (s ++ t) = lstrip s ++ t.
Proof.
  intros Hs Hend. destruct (lstrip_split s) as (w & Hw & Hall).
  assert (Hne : lstrip s <> []).
  { intros Hnil. rewrite Hnil, app_nil_r in Hw. subst w.
    rewrite ends_space_spaces in Hend by assumption. discriminate. }
  split; [exact Hne|]. split.
  - rewrite Hw, ends_space_app in Hend by exact Hne. exact Hend.
  - rewrite Hw at 1. rewrite <- app_assoc, lstrip_spaces_app by exact Hall.
    apply lstrip_id. rewrite starts_space_app by exact Hne.
    apply starts_space_lstrip.
Qed.

(** The substitution works on the two sides of a cut independently, unless
    the cut falls inside a run of whitespace. *)
Lemma re_sub_spaces_app s t :
  ends_space s = false ->
  re_sub_spaces (s ++ t) = re_sub_spaces s ++ re_sub_spaces t.
Proof.
  revert t. funelim (re_sub_spaces s); intros r Hend.
  - simp re_sub_spaces. reflexivity.
  - assert (Ht : t <> []) by (intros ->; rewrite andb_false_r in Heq; discriminate).
    rewrite ends_space_cons in Hend by exact Ht.
    destruct (lstrip_app t r Ht Hend) as (_ & Hend' & Happ).
    rewrite <- app_comm_cons, re_sub_spaces_cons_run
      by (rewrite starts_space_app by exact Ht; exact Heq).
    rewrite Happ, H by exact Hend'. reflexivity.
  - rewrite <- app_comm_cons. destruct t as [|d t].
    + unfold ends_space in Hend. simpl in Hend.
      rewrite re_sub_spaces_cons_copy by (rewrite Hend; reflexivity).
      simp re_sub_spaces. reflexivity.
    + rewrite ends_space_cons in Hend by done.
      rewrite re_sub_spaces_cons_copy
        by (rewrite starts_space_app by done; exact Heq).
      rewrite H by exact Hend. reflexivity.
Qed.

(** A run of two or more whitespace characters becomes one space. *)
Lemma re_sub_spaces_run w t :
  forallb isspace w = true -> 2 <= length w -> starts_space t = false ->
  re_sub_spaces (w ++ t) = 32%N :: re_sub_spaces t.
Proof.
  intros Hall Hlen Ht. destruct w as [|c [|d w]]; simpl in Hlen; try lia.
  pose proof Hall as [Hc Hrest]%andb_prop.
  pose proof Hrest as [Hd Hw]%andb_prop.
  rewrite <- app_comm_cons, re_sub_spaces_cons_run
    by (simpl; rewrite Hc, Hd; reflexivity).
  rewrite lstrip_spaces_app by exact Hrest.
  rewrite lstrip_id by exact Ht. reflexivity.
Qed.

Lemma re_sub_spaces_collapses s w t :
  ends_space s = false ->
  forallb isspace w = true -> 2 <= length w ->
  starts_space t = false ->
  re_sub_spaces (s ++ w ++ t) = re_sub_spaces s ++ 32%N :: re_sub_spaces t.
Proof.
  intros Hs Hall Hlen Ht.
  rewrite re_sub_spaces_app by exact Hs.
  rewrite re_sub_spaces_run by assumption. reflexivity.
Qed.

End StringFacts.

(** ** The service as a process *)

Section Process.

Context (L : Library).
Implicit Types s : State L.

Lemma run_cons r rs s :
  run L (r :: rs) s
  = (fst (serve L r s) :: fst (run L rs (snd (serve L r s))),
     snd (run L rs (snd (serve L r s)))).
Proof.
  simpl. destruct (serve L r s) as [resp s1]. simpl.
  destruct (run L rs s1) as [resps s2]. reflexivity.
Qed.

Lemma run_app rs1 rs2 s :
  snd (run L (rs1 ++ rs2) s) = snd (run L rs2 (snd (run L rs1 s))).
Proof.
  revert s. induction rs1 as [|r rs1 IH]; intros s; [reflexivity|].
  rewrite <- app_comm_cons, !run_cons. simpl. apply IH.
Qed.

Lemma serve_eq r s :
  serve L r s = (respond (fst (handler L r s)), snd (handler L r s)).
Proof. unfold serve. destruct (handler L r s). reflexivity. Qed.

(** A property of the globals that every handler keeps holds in every
    reachable state. *)
Lemma reachable_ind (P : State L -> Prop) :
  (forall disk, P (init L disk)) ->
  (forall r s, P s -> P (snd (handler L r s))) ->
  forall s, reachable L s -> P s.
Proof.
  intros Hinit Hstep s (disk & rs & ->).
  induction rs as [|r rs IH] using rev_ind; [apply Hinit|].
  rewrite run_app. rewrite run_cons. simpl. rewrite serve_eq. simpl.
  apply Hstep, IH.
Qed.

(** Only an upload answered with 200 changes the index. *)
Lemma serve_vectorstore r s :
  upload_succeeded (r, fst (serve L r s)) = false ->
  vectorstore (snd (serve L r s)) = vectorstore s.
Proof.
  rewrite serve_eq. destruct r as [file|data|data]; simpl.
  - pose proof (upload_pdf_result L file s) as Hup.
    destruct Hup; simpl; try reflexivity. discriminate.
  - intros _. apply keeps_index_ask_question.
  - intros _. apply keeps_index_summarize_pdf.
Qed.

(** The only thing a request writes to disk is an uploaded file. *)
Lemma serve_files r s :
  files (snd (serve L r s)) = files s
  \/ exists file, r = POST_upload file
       /\ files (snd (serve L r s))
          = <[file_location file := content file]> (files s).
Proof.
  rewrite serve_eq. destruct r as [file|data|data]; simpl.
  - pose proof (upload_pdf_result L file s) as Hup.
    destruct Hup; simpl; try (left; reflexivity);
      right; exists file; (split; [reflexivity | apply uploaded_files]).
  - left. apply keeps_index_ask_question.
  - left. apply keeps_index_summarize_pdf.
Qed.

Lemma run_vectorstore rs s :
  existsb upload_succeeded (combine rs (fst (run L rs s))) = false ->
  vectorstore (snd (run L rs s)) = vectorstore s.
Proof.
  revert s. induction rs as [|r rs IH]; intros s; [reflexivity|].
  rewrite run_cons. simpl. intros [Hr Hrs]%orb_false_elim.
  rewrite (IH _ Hrs). apply serve_vectorstore, Hr.
Qed.

Lemma run_files rs s path data :
  files (snd (run L rs s)) !! path = Some data ->
  files s !! path = Some data
  \/ exists file, In (POST_upload file) rs
       /\ path = file_location file /\ data = content file.
Proof.
  revert s. induction rs as [|r rs IH]; intros s; [left; assumption|].
  rewrite run_cons. simpl. intros Hlook.
  destruct (IH _ Hlook) as [Hprev | (file & Hin & Hpath & Hdata)].
  - destruct (serve_files r s) as [Heq | (file & -> & Heq)];
      rewrite Heq in Hprev; [left; assumption|].
    destruct (decide (file_location file = path)) as [<-|Hne].
    + rewrite lookup_insert_eq in Hprev. right. exists file.
      split; [left; reflexivity | split; congruence].
    + rewrite lookup_insert_ne in Hprev by assumption. left. assumption.
  - right. exists file. split; [right; assumption | split; assumption].
Qed.

Lemma upload_pdf_same_generation file s :
  same_generation L s (snd (upload_pdf L file s)).
Proof.
  pose proof (upload_pdf_result L file s) as Hup.
  destruct Hup; repeat split.
Qed.

Lemma ask_question_flag_recorded data s :
  flag_recorded L s -> flag_recorded L (snd (ask_question L data s)).
Proof.
  intros Hs. unfold ask_question. unfold_monad.
  destruct (vectorstore s) as [vs|]; [|exact Hs]. cbv beta iota zeta.
  destruct (similarity_search L vs _ 6) as [docs|]; simpl; [|exact Hs].
  destruct (is_empty docs); [exact Hs|].
  match goal with
  | |- context [generate_response L ?p ?n ?s0] =>
      pose proof (generate_response_flag_recorded L p n s0 Hs) as Hg;
      destruct (generate_response L p n s0) as [[text|e] s1]
  end; exact Hg.
Qed.

Lemma summarize_pdf_flag_recorded data s :
  flag_recorded L s -> flag_recorded L (snd (summarize_pdf L data s)).
Proof.
  intros Hs. unfold summarize_pdf. unfold_monad.
  destruct (vectorstore s) as [vs|]; [|exact Hs]. cbv beta iota zeta.
  destruct (similarity_search L vs _ 8) as [docs|]; simpl; [|exact Hs].
  match goal with
  | |- context [generate_response L ?p ?n ?s0] =>
      pose proof (generate_response_flag_recorded L p n s0 Hs) as Hg;
      destruct (generate_response L p n s0) as [[text|e] s1]
  end; exact Hg.
Qed.

Lemma reachable_flag_recorded s : reachable L s -> flag_recorded L s.
Proof.
  apply reachable_ind.
  - intros disk m Hm. discriminate.
  - intros [file|data|data] s0 Hs0; simpl.
    + eapply flag_recorded_same; [apply upload_pdf_same_generation | exact Hs0].
    + apply ask_question_flag_recorded, Hs0.
    + apply summarize_pdf_flag_recorded, Hs0.
Qed.

(** What a successful load returns is what it leaves in the globals. *)
Lemma load_generation_model_stored s tok m flag s1 :
  load_generation_model L s = (Return (tok, m, flag), s1) ->
  generation_tokenizer s1 = tok
  /\ generation_model s1 = Some m
  /\ generation_is_encoder_decoder s1 = flag.
Proof.
  unfold load_generation_model. unfold_monad. simpl.
  destruct (generation_model s) eqn:Hm.
  - intros [= <- <- <- <-]. auto.
  - repeat (case_match; simpl in *; simplify_eq); intros; simplify_eq; auto.
Qed.

End Process.

Section Upload.

Context (L : Library).
Implicit Types s : State L.

(** An upload that raises leaves every global as it was. *)
Lemma upload_pdf_raise_agree file s e :
  fst (upload_pdf L file s) = Raise e -> agree L s (snd (upload_pdf L file s)).
Proof.
  pose proof (upload_pdf_result L file s) as Hup.
  destruct Hup; intros He; try discriminate; repeat split.
Qed.

(** The two ways an upload ends in an [HTTPException]. *)
Lemma upload_pdf_http_exception file s code detail :
  fst (upload_pdf L file s) = Raise (HTTPException code detail) ->
  code = 400
  /\ ((endswith (filename file) (lit ".pdf") = false
       /\ detail = lit "Only PDF files are allowed.")
      \/ (endswith (filename file) (lit ".pdf") = true
          /\ detail = lit "No text found in PDF."
          /\ exists docs,
               PyPDFLoader_load L (file_location file) (content file) = Some docs
               /\ split_documents L 800 150 docs = Some [])).
Proof.
  pose proof (upload_pdf_result L file s) as Hup.
  destruct Hup; intros He; try discriminate; injection He as <- <-.
  - split; [reflexivity|]. left. auto.
  - split; [reflexivity|]. right. eauto.
Qed.

End Upload.

(** ** The claims *)

(** *** Generation *)

(** C5 (lazy one-time loading).  The first call of [load_generation_model]
    loads the tokenizer and the model the configuration selects, records
    whether the model is encoder-decoder, and stores all three in the
    globals; calling it again returns the same three values and leaves the
    state, and with it the trace of library calls, unchanged.  The same holds
    in any state in which a model is stored. *)
Theorem load_generation_model_lazy_one_time
    (L : Library) (s : State L) cfg tok m m' :
  generation_model s = None ->
  AutoConfig_from_pretrained L (HF_GENERATION_MODEL L) = Some cfg ->
  AutoTokenizer_from_pretrained L (HF_GENERATION_MODEL L) = Some tok ->
  from_pretrained_for L (default false (is_encoder_decoder L cfg))
    (HF_GENERATION_MODEL L) = Some m ->
  placed L m = Some m' ->
  let flag := default false (is_encoder_decoder L cfg) in
  let loaded := (Some tok, eval L m', flag) in
  exists s1,
    load_generation_model L s = (Return loaded, s1)
    /\ generation_tokenizer s1 = Some tok
    /\ generation_model s1 = Some (eval L m')
    /\ generation_is_encoder_decoder s1 = flag
    /\ calls s1 = calls s ++ load_calls L flag
    /\ load_generation_model L s1 = (Return loaded, s1)
    /\ (forall s2 m2, generation_model s2 = Some m2 ->
          load_generation_model L s2
          = (Return (generation_tokenizer s2, m2, generation_is_encoder_decoder s2),
             s2)).
Proof.
  intros Hnone Hcfg Htok Hm Hp flag loaded.
  eexists. split; [apply (load_generation_model_first L s cfg tok m m'); assumption|].
  repeat split; try reflexivity.
  intros s2 m2. apply load_generation_model_cached.
Qed.

Lemma load_generation_model_lazy_one_time_witness :
  let L := Toy.library true (lit "ok") in
  exists s1,
    load_generation_model L (init L ∅) = (Return (Some tt, tt, true), s1)
    /\ generation_tokenizer s1 = Some tt
    /\ generation_model s1 = Some tt
    /\ generation_is_encoder_decoder s1 = true
    /\ calls s1 = calls (init L ∅) ++ load_calls L true
    /\ load_generation_model L s1 = (Return (Some tt, tt, true), s1)
    /\ (forall s2 m2, generation_model s2 = Some m2 ->
          load_generation_model L s2
          = (Return (generation_tokenizer s2, m2, generation_is_encoder_decoder s2),
             s2)).
Proof.
  intros L.
  apply (load_generation_model_lazy_one_time L (init L ∅) true tt tt tt);
    reflexivity.
Defined.

(** C2 (decoding by architecture).  Take any state in which a handler calls
    [generate_response]: the generation globals are those of a state the
    service has reached, whatever library calls the request has made since.
    When the model loads and tokenizing, generating and decoding succeed
    (for a causal model the encoding must have its [input_ids]),
    [generate_response] decodes the whole generated sequence if the
    configuration of the model marks it encoder-decoder, and otherwise only
    the generated tokens after the first [len(input_ids)]; it returns that
    text stripped, having called the tokenizer, the model and the decoder in
    this order. *)
Theorem generate_response_decodes_by_architecture
    (L : Library) (s0 s s1 : State L)
    cfg tok m flag prompt n enc input_ids ids text :
  reachable L s0 ->
  same_generation L s0 s ->
  AutoConfig_from_pretrained L (HF_GENERATION_MODEL L) = Some cfg ->
  load_generation_model L s = (Return (Some tok, m, flag), s1) ->
  tokenizer_call L tok prompt 2048 = Some enc ->
  (default false (is_encoder_decoder L cfg) = false ->
   dict_get enc "input_ids" = Some input_ids) ->
  let pad := py_or (pad_token_id L tok) (eos_token_id L tok) in
  generate L m enc n pad = Some ids ->
  let decoded :=
    if default false (is_encoder_decoder L cfg)
    then ids
    else drop (length input_ids) ids in
  decode L tok decoded = Some text ->
  generate_response L prompt n s
  = (Return (strip text),
     log L (call_decode decoded)
       (log L (call_generate enc n pad) (log L (call_tokenizer prompt 2048) s1))).
Proof.
  intros Hreach Hsame Hcfg Hload Henc Hids pad Hgen decoded Hdec.
  assert (Hflag : flag = default false (is_encoder_decoder L cfg)).
  { pose proof (reachable_flag_recorded L s0 Hreach) as Hrec.
    apply (flag_recorded_same L s0 s Hsame) in Hrec.
    apply load_generation_model_flag_recorded in Hrec. rewrite Hload in Hrec.
    destruct (load_generation_model_stored L s _ _ _ _ Hload) as (_ & Hm1 & Hf1).
    destruct (Hrec m Hm1) as (cfg' & Hcfg' & Hf'). simpl in *. congruence. }
  subst decoded. rewrite <- Hflag in Hids, Hdec |- *.
  apply (generate_response_ok L s s1 tok m flag prompt n enc input_ids ids text);
    auto.
Qed.

Lemma generate_response_decodes_by_architecture_witness :
  let L := Toy.library false (lit " 4 pages ") in
  let s0 := Toy.indexed false (lit " 4 pages ") in
  let s := log L (call_similarity_search (lit "How long?") 6) s0 in
  let prompt := ask_prompt (join (NL ++ NL) [lit "hi"]) (lit "How long?") in
  fst (generate_response L prompt 300 s) = Return (lit "4 pages")
  /\ calls (snd (generate_response L prompt 300 s))
     = calls (snd (load_generation_model L s))
       ++ [call_tokenizer prompt 2048;
           call_generate [("input_ids"%string, map Z.of_N prompt)] 300 (Some 1%Z);
           call_decode (map Z.of_N (lit " 4 pages "))].
Proof.
  intros L s0 s prompt.
  assert (Hreach : reachable L s0)
    by (exists ∅, [POST_upload Toy.a_pdf]; reflexivity).
  pose proof (generate_response_decodes_by_architecture L s0 s
                (snd (load_generation_model L s)) false tt tt false prompt 300
                [("input_ids"%string, map Z.of_N prompt)]
                (map Z.of_N prompt)
                (map Z.of_N (prompt ++ lit " 4 pages "))
                (lit " 4 pages ")
                Hreach (conj eq_refl (conj eq_refl eq_refl))
                eq_refl eq_refl eq_refl (fun _ => eq_refl)) as Hrun.
  cbv zeta in Hrun. rewrite Hrun by (vm_compute; reflexivity).
  split; vm_compute; reflexivity.
Defined.

(** *** [/ask] and [/summarize] *)






(** C9 (empty retrieval).  With an index set, when the search of [/ask]
    returns no document the handler returns exactly the "Not found in
    document." answer, and the only library call it makes is the search:
    no model is loaded, no prompt tokenized, nothing generated.
    [/summarize] has no such check: when its own search returns no document
    it goes on to generate from the prompt with an empty context. *)
Theorem ask_question_empty_retrieval
    (L : Library) (data : AskRequest) (sdata : SummaryRequest) (s : State L) vs :
  vectorstore s = Some vs ->
  (similarity_search L vs (strip (question data)) 6 = Some [] ->
   ask_question L data s
   = (Return [("answer"%string, lit "Not found in document.")],
      log L (call_similarity_search (strip (question data)) 6) s)
   /\ calls (snd (ask_question L data s))
      = calls s ++ [call_similarity_search (strip (question data)) 6]
   /\ same_generation L s (snd (ask_question L data s)))
  /\ (similarity_search L vs (lit "Summarize the document") 8 = Some [] ->
      let generated :=
        generate_response L (summarize_prompt []) 350
          (log L (call_similarity_search (lit "Summarize the document") 8) s) in
      summarize_pdf L sdata s
      = (outcome_map (fun summary => [("summary"%string, summary)]) (fst generated),
         snd generated)).
Proof.
  intros Hvs. split.
  - intros Hask. rewrite (ask_question_not_found L data s vs Hvs Hask).
    repeat split.
  - intros Hsum. exact (summarize_pdf_generates L sdata s vs [] Hvs Hsum).
Qed.

Lemma ask_question_empty_retrieval_witness :
  let L := with_similarity_search (Toy.library true (lit "nothing"))
             summary_only_search in
  let s := snd (upload_pdf L Toy.a_pdf (init L ∅)) in
  similarity_search L [{| page_content := lit "hi";
                          metadata := [(lit "source", lit "temp_a.pdf")] |}]
    (lit "Summarize the document") 8
  = Some [{| page_content := lit "hi";
             metadata := [(lit "source", lit "temp_a.pdf")] |}]
  /\ ask_question L {| question := lit "Why?" |} s
     = (Return [("answer"%string, lit "Not found in document.")],
        log L (call_similarity_search (lit "Why?") 6) s)
  /\ (let s0 := set_vectorstore L (Some []) (init L ∅) in
      fst (summarize_pdf L Build_SummaryRequest s0)
      = Return [("summary"%string, lit "nothing")]).
Proof.
  intros L s. split; [reflexivity|]. split.
  - apply (proj1 (ask_question_empty_retrieval L {| question := lit "Why?" |}
                    Build_SummaryRequest s
                    [{| page_content := lit "hi";
                        metadata := [(lit "source", lit "temp_a.pdf")] |}]
                    eq_refl)).
    reflexivity.
  - intros s0.
    pose proof (proj2 (ask_question_empty_retrieval L {| question := lit "Why?" |}
                         Build_SummaryRequest s0 [] eq_refl) eq_refl) as Hsum.
    cbv zeta in Hsum. rewrite Hsum. reflexivity.
Defined.

(** C10 (normalized answers).  Every answer [/ask] produces by generation is
    the generated text with its whitespace runs collapsed and its ends
    stripped: it has no two whitespace characters in a row and neither
    starts nor ends with one; and wherever the generated text has two or
    more whitespace characters between two other characters, the
    substitution puts a single space. *)
Theorem ask_question_answer_normalized
    (L : Library) (data : AskRequest) (s s' : State L) vs docs d :
  vectorstore s = Some vs ->
  similarity_search L vs (strip (question data)) 6 = Some docs ->
  docs <> [] ->
  ask_question L data s = (Return d, s') ->
  exists text answer,
    fst (generate_response L
           (ask_prompt (join (NL ++ NL) (map page_content docs))
              (strip (question data))) 300
           (log L (call_similarity_search (strip (question data)) 6) s))
    = Return text
    /\ d = [("answer"%string, answer)]
    /\ answer = strip (re_sub_spaces text)
    /\ no_space_run answer = true
    /\ starts_space answer = false
    /\ ends_space answer = false
    /\ (forall a w b,
          text = a ++ w ++ b ->
          ends_space a = false -> starts_space b = false ->
          forallb isspace w = true -> 2 <= length w ->
          re_sub_spaces text = re_sub_spaces a ++ 32%N :: re_sub_spaces b).
Proof.
  intros Hvs Hdocs Hne Hask.
  rewrite (ask_question_generates L data s vs docs Hvs Hdocs Hne) in Hask.
  cbv zeta in Hask.
  destruct (generate_response L _ 300 _) as [[text|e] s1]; simpl in Hask;
    [|discriminate].
  injection Hask as <- <-.
  exists text, (strip (re_sub_spaces text)).
  destruct (strip_re_sub_spaces_normal text) as (Hrun & Hstart & Hend).
  repeat split; try assumption.
  intros a w b -> Ha Hb Hw Hlen. apply re_sub_spaces_collapses; assumption.
Qed.

Lemma ask_question_answer_normalized_witness :
  let L := Toy.library false (lit "  it   has 4  pages ") in
  exists text answer,
    fst (generate_response L
           (ask_prompt (join (NL ++ NL) [lit "hi"]) (lit "How long?")) 300
           (log L (call_similarity_search (lit "How long?") 6)
              (Toy.indexed false (lit "  it   has 4  pages "))))
    = Return text
    /\ [("answer"%string, lit "it has 4 pages")] = [("answer"%string, answer)]
    /\ answer = strip (re_sub_spaces text)
    /\ no_space_run answer = true
    /\ starts_space answer = false
    /\ ends_space answer = false
    /\ (forall a w b,
          text = a ++ w ++ b ->
          ends_space a = false -> starts_space b = false ->
          forallb isspace w = true -> 2 <= length w ->
          re_sub_spaces text = re_sub_spaces a ++ 32%N :: re_sub_spaces b).
Proof.
  intros L.
  apply (ask_question_answer_normalized L {| question := lit " How long?" |}
           (Toy.indexed false (lit "  it   has 4  pages "))
           (snd (ask_question L {| question := lit " How long?" |}
                   (Toy.indexed false (lit "  it   has 4  pages "))))
           [{| page_content := lit "hi";
               metadata := [(lit "source", lit "temp_a.pdf")] |}]
           [{| page_content := lit "hi";
               metadata := [(lit "source", lit "temp_a.pdf")] |}]);
    [reflexivity | reflexivity | discriminate | vm_compute; reflexivity].
Defined.

(** *** [/upload] and the index *)

(** C3 (one index, replaced by each upload).  After a successful
    [/upload] the global index is the one [FAISS.from_documents] builds from
    the chunks of the uploaded file, and nothing of the earlier state enters
    it: from any other state the same upload succeeds with the same index. *)
Theorem upload_pdf_replaces_index
    (L : Library) (file : UploadFile) (s s' : State L) d :
  upload_pdf L file s = (Return d, s') ->
  exists docs chunks vs,
    PyPDFLoader_load L (lit "temp_" ++ filename file) (content file) = Some docs
    /\ split_documents L 800 150 docs = Some chunks
    /\ chunks <> []
    /\ FAISS_from_documents L chunks (embedding_model L) = Some vs
    /\ vectorstore s' = Some vs
    /\ d = [("doc_id"%string, filename file)]
    /\ forall s2 : State L,
         fst (upload_pdf L file s2) = Return d
         /\ vectorstore (snd (upload_pdf L file s2)) = Some vs.
Proof.
  intros Hrun. pose proof (upload_pdf_result L file s) as Hup.
  rewrite Hrun in Hup. simpl in Hup.
  inversion Hup as [| | | | | |docs chunks vs Hpdf Hopen Hload Hsplit Hne Hvs].
  subst. exists docs, chunks, vs. repeat split; try assumption.
  - pose proof (upload_pdf_result L file s2) as Hup2.
    destruct Hup2; try reflexivity; unfold file_location in *; congruence.
  - pose proof (upload_pdf_result L file s2) as Hup2.
    destruct Hup2; unfold file_location in *; simpl; congruence.
Qed.

Lemma upload_pdf_replaces_index_witness :
  let L := Toy.library true (lit "ok") in
  exists docs chunks vs,
    PyPDFLoader_load L (lit "temp_" ++ filename Toy.a_pdf) (content Toy.a_pdf)
    = Some docs
    /\ split_documents L 800 150 docs = Some chunks
    /\ chunks <> []
    /\ FAISS_from_documents L chunks (embedding_model L) = Some vs
    /\ vectorstore (Toy.indexed true (lit "ok")) = Some vs
    /\ [("doc_id"%string, lit "a.pdf")] = [("doc_id"%string, filename Toy.a_pdf)]
    /\ forall s2 : State L,
         fst (upload_pdf L Toy.a_pdf s2) = Return [("doc_id"%string, lit "a.pdf")]
         /\ vectorstore (snd (upload_pdf L Toy.a_pdf s2)) = Some vs.
Proof.
  intros L.
  apply (upload_pdf_replaces_index L Toy.a_pdf (init L ∅)
           (Toy.indexed true (lit "ok"))).
  vm_compute. reflexivity.
Defined.

(** C8 (a rejected upload leaves the index alone).  When [/upload] ends in
    HTTP 400, for a file name not ending in ".pdf" or a PDF with no text
    chunks, the global index is what it was, and [/ask] and [/summarize]
    answer afterwards as they would have before. *)
Theorem upload_pdf_failure_keeps_index
    (L : Library) (file : UploadFile) (s s' : State L) detail :
  upload_pdf L file s = (Raise (HTTPException 400 detail), s') ->
  ((endswith (filename file) (lit ".pdf") = false
    /\ detail = lit "Only PDF files are allowed.")
   \/ (endswith (filename file) (lit ".pdf") = true
       /\ detail = lit "No text found in PDF."
       /\ exists docs,
            PyPDFLoader_load L (lit "temp_" ++ filename file) (content file)
            = Some docs
            /\ split_documents L 800 150 docs = Some []))
  /\ vectorstore s' = vectorstore s
  /\ (forall data, fst (ask_question L data s') = fst (ask_question L data s))
  /\ (forall data, fst (summarize_pdf L data s') = fst (summarize_pdf L data s)).
Proof.
  intros Hrun.
  pose proof (upload_pdf_http_exception L file s 400 detail) as Hwhy.
  pose proof (upload_pdf_raise_agree L file s (HTTPException 400 detail)) as Hagree.
  rewrite Hrun in Hwhy, Hagree. simpl in Hwhy, Hagree.
  specialize (Hwhy eq_refl) as [_ Hwhy]. specialize (Hagree eq_refl).
  split; [exact Hwhy|]. split; [apply Hagree|]. split; intros data.
  - apply (respects_ask_question L data s s' Hagree).
  - apply (respects_summarize_pdf L data s s' Hagree).
Qed.

Lemma upload_pdf_failure_keeps_index_witness :
  let L := Toy.library true (lit "ok") in
  let s := Toy.indexed true (lit "ok") in
  let empty_pdf := {| filename := lit "b.pdf"; content := [] |} in
  let s' := snd (upload_pdf L empty_pdf s) in
  vectorstore s' = vectorstore s
  /\ fst (ask_question L {| question := lit "Why?" |} s')
     = fst (ask_question L {| question := lit "Why?" |} s).
Proof.
  intros L s empty_pdf s'.
  destruct (upload_pdf_failure_keeps_index L empty_pdf s s'
              (lit "No text found in PDF.") eq_refl)
    as (_ & Hvs & Hask & _).
  split; [exact Hvs | apply Hask].
Defined.

(** C4, as amended (how handled failures are reported).  The failures
    [/upload] tests for are answered with HTTP 400 and a [detail] message.
    The missing index that [/ask] and [/summarize] test for is answered
    with HTTP 200 and the message in the [answer] or [summary] field. *)
Theorem handled_failure_response (L : Library) (r : request) (s : State L) :
  handled_failure L r s ->
  let resp := fst (serve L r s) in
  match r with
  | POST_upload _ =>
      status resp = 400
      /\ (body resp = [("detail"%string, lit "Only PDF files are allowed.")]
          \/ body resp = [("detail"%string, lit "No text found in PDF.")])
  | POST_ask _ =>
      status resp = 200
      /\ body resp = [("answer"%string, lit "Please upload a PDF first.")]
  | POST_summarize _ =>
      status resp = 200
      /\ body resp = [("summary"%string, lit "Please upload a PDF first.")]
  end.
Proof.
  intros Hfail resp. subst resp. rewrite serve_eq.
  destruct r as [file|data|data]; simpl in *.
  - pose proof (upload_pdf_result L file s) as Hup.
    destruct Hfail as [Hpdf | (Hpdf & Hopen & docs & Hload & Hsplit)];
      destruct Hup; simpl; try congruence; auto.
  - rewrite (ask_question_no_index L data s Hfail). auto.
  - rewrite (summarize_pdf_no_index L data s Hfail). auto.
Qed.

Lemma handled_failure_response_witness :
  let L := Toy.library true (lit "ok") in
  let resp :=
    fst (serve L (POST_upload {| filename := lit "notes.txt"; content := [] |})
           (init L ∅)) in
  status resp = 400
  /\ (body resp = [("detail"%string, lit "Only PDF files are allowed.")]
      \/ body resp = [("detail"%string, lit "No text found in PDF.")]).
Proof.
  intros L.
  apply (handled_failure_response L
           (POST_upload {| filename := lit "notes.txt"; content := [] |})
           (init L ∅)).
  left. reflexivity.
Defined.

(** C4 as written fails: asked before any upload, [/ask] detects the missing
    index and answers 200 with the error message in the body. *)
Lemma no_index_answered_with_200 :
  let L := Toy.library true (lit "ok") in
  let r := POST_ask {| question := lit "Why?" |} in
  let resp := fst (serve L r (init L ∅)) in
  handled_failure L r (init L ∅)
  /\ status resp = 200
  /\ body resp = [("answer"%string, lit "Please upload a PDF first.")]
  /\ ~ 400 <= status resp.
Proof.
  intros L r resp. repeat split. vm_compute. lia.
Qed.

(** C7 (the index lives in memory only).  The index is [None] at process
    start whatever is on disk, and stays [None] until an upload is answered
    with 200.  All a run leaves on disk beyond what was there is the raw
    content of uploaded files under their [temp_] names; so a process
    started afterwards on that disk has no index. *)
Theorem index_is_memory_resident
    (L : Library) (disk : gmap str bytes) (rs : list request) :
  let s := snd (run L rs (init L disk)) in
  vectorstore (init L disk) = None
  /\ (existsb upload_succeeded (combine rs (fst (run L rs (init L disk)))) = false ->
      vectorstore s = None)
  /\ (forall path data, files s !! path = Some data ->
        disk !! path = Some data
        \/ exists file, In (POST_upload file) rs
             /\ path = lit "temp_" ++ filename file /\ data = content file)
  /\ vectorstore (init L (files s)) = None.
Proof.
  intros s. split; [reflexivity|]. split; [|split; [|reflexivity]].
  - intros Hnone. subst s. rewrite (run_vectorstore L rs _ Hnone). reflexivity.
  - intros path data Hlook. apply (run_files L rs (init L disk) path data Hlook).
Qed.

Lemma index_is_memory_resident_witness :
  let L := Toy.library true (lit "ok") in
  let rs := [POST_ask {| question := lit "Why?" |};
             POST_upload {| filename := lit "notes.txt"; content := [Byte.x68] |};
             POST_upload {| filename := lit "empty.pdf"; content := [] |};
             POST_summarize Build_SummaryRequest] in
  vectorstore (snd (run L rs (init L ∅))) = None.
Proof.
  intros L rs.
  apply (proj1 (proj2 (index_is_memory_resident L ∅ rs))).
  reflexivity.
Defined.

(** ** Further properties *)

(** *** The string operations *)

Section MoreStringFacts.

Implicit Types s t : str.

Lemma lstrip_nil_iff s : lstrip s = [] <-> forallb isspace s = true.
Proof.
  split.
  - intros Hs. destruct (lstrip_split s) as (w & Hw & Hall).
    rewrite Hs, app_nil_r in Hw. subst w. exact Hall.
  - intros Hall. rewrite <- (app_nil_r s). apply lstrip_spaces_app, Hall.
Qed.

Lemma forallb_isspace_rev s : forallb isspace (rev s) = forallb isspace s.
Proof.
  induction s as [|c s IH]; [reflexivity|]. simpl.
  rewrite forallb_app, IH. simpl. rewrite andb_true_r. apply andb_comm.
Qed.

(** Stripping leaves nothing exactly when there was only whitespace. *)
Lemma strip_nil_iff s : strip s = [] <-> forallb isspace s = true.
Proof.
  unfold strip, rstrip. split.
  - intros Hs. apply (f_equal (@rev N)) in Hs. rewrite rev_involutive in Hs.
    simpl in Hs. apply lstrip_nil_iff in Hs. rewrite forallb_isspace_rev in Hs.
    pose proof (starts_space_lstrip s) as Hstart.
    destruct (lstrip s) as [|c u] eqn:Hu; [apply lstrip_nil_iff, Hu|].
    simpl in Hs, Hstart. rewrite Hstart in Hs. discriminate.
  - intros Hall. apply lstrip_nil_iff in Hall. rewrite Hall. reflexivity.
Qed.

Lemma non_space_app s t : non_space (s ++ t) = non_space s ++ non_space t.
Proof. apply List.filter_app. Qed.

Lemma non_space_spaces w : forallb isspace w = true -> non_space w = [].
Proof.
  induction w as [|c w IH]; [reflexivity|]. simpl.
  intros [Hc Hw]%andb_prop. rewrite Hc. simpl. apply IH, Hw.
Qed.

Lemma non_space_lstrip s : non_space (lstrip s) = non_space s.
Proof.
  destruct (lstrip_split s) as (w & Hw & Hall).
  transitivity (non_space (w ++ lstrip s)); [|rewrite <- Hw; reflexivity].
  rewrite non_space_app, (non_space_spaces w) by exact Hall. reflexivity.
Qed.

Lemma non_space_rev s : non_space (rev s) = rev (non_space s).
Proof.
  induction s as [|c s IH]; [reflexivity|]. simpl.
  rewrite non_space_app, IH. simpl.
  destruct (isspace c); simpl; [apply app_nil_r | reflexivity].
Qed.

Lemma non_space_strip s : non_space (strip s) = non_space s.
Proof.
  unfold strip, rstrip.
  rewrite non_space_rev, non_space_lstrip, non_space_rev, rev_involutive.
  apply non_space_lstrip.
Qed.

(** The substitution only touches whitespace. *)
Lemma non_space_re_sub_spaces s : non_space (re_sub_spaces s) = non_space s.
Proof.
  funelim (re_sub_spaces s); simp re_sub_spaces; [reflexivity| |].
  - apply andb_prop in Heq as [Hc _].
    simpl. rewrite Hc. simpl.
    match goal with IH : non_space _ = non_space _ |- _ => rewrite IH end.
    apply non_space_lstrip.
  - simpl.
    match goal with IH : non_space _ = non_space _ |- _ => rewrite IH end.
    reflexivity.
Qed.

Lemma lstrip_length s : length (lstrip s) <= length s.
Proof.
  induction s as [|c t IH]; simpl; [lia|]. destruct (isspace c); simpl; lia.
Qed.

Lemma strip_length s : length (strip s) <= length s.
Proof.
  unfold strip, rstrip. rewrite length_rev.
  pose proof (lstrip_length (rev (lstrip s))) as H1.
  rewrite length_rev in H1. pose proof (lstrip_length s). lia.
Qed.

Lemma re_sub_spaces_length s : length (re_sub_spaces s) <= length s.
Proof.
  funelim (re_sub_spaces s); simp re_sub_spaces; simpl; [lia| |].
  - pose proof (lstrip_length t). lia.
  - lia.
Qed.

(** Without a run of whitespace there is nothing to substitute. *)
Lemma re_sub_spaces_fixed s : no_space_run s = true -> re_sub_spaces s = s.
Proof.
  induction s as [|c t IH]; [reflexivity|]. cbn [no_space_run].
  intros [Hc Ht]%andb_prop. apply negb_true_iff in Hc.
  rewrite re_sub_spaces_cons_copy by exact Hc. rewrite IH by exact Ht.
  reflexivity.
Qed.

Lemma strip_re_sub_spaces_idemp s :
  strip (re_sub_spaces (strip (re_sub_spaces s))) = strip (re_sub_spaces s).
Proof.
  destruct (strip_re_sub_spaces_normal s) as (Hrun & _ & _).
  rewrite re_sub_spaces_fixed by exact Hrun. apply strip_idemp.
Qed.


End MoreStringFacts.

(** X1 (question validation).  The validator of [AskRequest] rejects a
    question exactly when it consists of whitespace only; a question it
    accepts is the stripped input, is not empty, neither starts nor ends
    with whitespace, and is accepted unchanged when validated again. *)
Theorem validate_question_spec (v : str) :
  (validate_question v = None <-> forallb isspace v = true)
  /\ (forall q, validate_question v = Some q ->
        q = strip v /\ q <> [] /\ starts_space q = false /\ ends_space q = false
        /\ length q <= length v
        /\ validate_question q = Some q).
Proof.
  unfold validate_question. split.
  - rewrite <- strip_nil_iff. destruct (strip v); simpl; split; congruence.
  - intros q. destruct (strip v) as [|c u] eqn:Hv; simpl; [discriminate|].
    intros [= <-]. rewrite <- Hv.
    split; [reflexivity|]. split; [rewrite Hv; discriminate|].
    split; [apply starts_space_strip|]. split; [apply ends_space_strip|].
    split; [apply strip_length|].
    rewrite strip_idemp, Hv. reflexivity.
Qed.

Lemma validate_question_spec_witness :
  validate_question (lit "  why? ") = Some (lit "why?")
  /\ validate_question (lit "why?") = Some (lit "why?")
  /\ validate_question (lit " ") = None.
Proof.
  destruct (validate_question_spec (lit "  why? ")) as [_ Hsome].
  destruct (Hsome (lit "why?") eq_refl) as (_ & _ & _ & _ & _ & Hagain).
  destruct (validate_question_spec (lit " ")) as [Hnone _].
  split; [reflexivity|]. split; [exact Hagain | apply Hnone; reflexivity].
Defined.

(** *** Exceptions of the handlers *)

Section Exceptions.

Context (L : Library).
Implicit Types s : State L.











(** How a load can fail: in a library call, and with a model stored only
    when the failing call is the move to the GPU. *)
Lemma load_generation_model_raise s e s1 :
  generation_model s = None ->
  load_generation_model L s = (Raise e, s1) ->
  (generation_model s1 = None
   /\ exists c, e = LibraryError c /\ c <> call_to_cuda /\ is_load_call c = true)
  \/ (e = LibraryError call_to_cuda
      /\ cuda_is_available L = true
      /\ exists cfg tok m,
           AutoConfig_from_pretrained L (HF_GENERATION_MODEL L) = Some cfg
           /\ from_pretrained_for L (default false (is_encoder_decoder L cfg))
                (HF_GENERATION_MODEL L) = Some m
           /\ to_cuda L m = None
           /\ generation_tokenizer s1 = Some tok
           /\ generation_model s1 = Some m
           /\ generation_is_encoder_decoder s1
              = default false (is_encoder_decoder L cfg)).
Proof.
  intros Hnone. unfold load_generation_model, from_pretrained_for. unfold_monad.
  simpl. rewrite Hnone.
  destruct (AutoConfig_from_pretrained L (HF_GENERATION_MODEL L)) as [cfg|] eqn:Hcfg;
    simpl.
  2:{ intros [= <- <-]. left. split; [exact Hnone|]. eexists. repeat split. discriminate. }
  destruct (AutoTokenizer_from_pretrained L (HF_GENERATION_MODEL L)) as [tok|] eqn:Htok;
    simpl.
  2:{ intros [= <- <-]. left. split; [exact Hnone|]. eexists. repeat split. discriminate. }
  destruct (default false (is_encoder_decoder L cfg)) eqn:Hflag; simpl.
  - destruct (AutoModelForSeq2SeqLM_from_pretrained L (HF_GENERATION_MODEL L))
      as [m|] eqn:Hm; simpl.
    2:{ intros [= <- <-]. left. split; [exact Hnone|]. eexists. repeat split.
        discriminate. }
    destruct (cuda_is_available L) eqn:Hcuda; simpl; [|discriminate].
    destruct (to_cuda L m) eqn:Hto; simpl; [discriminate|].
    intros [= <- <-]. right. split; [reflexivity|]. split; [reflexivity|].
    exists cfg, tok, m. rewrite Hflag. repeat split; assumption.
  - destruct (AutoModelForCausalLM_from_pretrained L (HF_GENERATION_MODEL L))
      as [m|] eqn:Hm; simpl.
    2:{ intros [= <- <-]. left. split; [exact Hnone|]. eexists. repeat split.
        discriminate. }
    destruct (cuda_is_available L) eqn:Hcuda; simpl; [|discriminate].
    destruct (to_cuda L m) eqn:Hto; simpl; [discriminate|].
    intros [= <- <-]. right. split; [reflexivity|]. split; [reflexivity|].
    exists cfg, tok, m. rewrite Hflag. repeat split; assumption.
Qed.

(** What [generate_response] returns is a stripped text. *)
Lemma generate_response_returns_stripped prompt n s text s' :
  generate_response L prompt n s = (Return text, s') ->
  exists raw, text = strip raw.
Proof.
  unfold generate_response. unfold_monad.
  destruct (load_generation_model L s) as [[[[tok m] flag]|e] s1]; simpl;
    [|discriminate].
  repeat (case_match; simpl in *; simplify_eq); intros; simplify_eq; eauto.
Qed.

End Exceptions.

(** *** The life of the generation model *)

Section Lifecycle.

Context (L : Library).
Implicit Types s : State L.

Lemma same_generation_trans s1 s2 s3 :
  same_generation L s1 s2 -> same_generation L s2 s3 -> same_generation L s1 s3.
Proof.
  intros (Ht & Hm & Hf) (Ht' & Hm' & Hf'). repeat split; congruence.
Qed.

(** A property of the generation globals that loading keeps is kept by
    [generate_response]. *)
Lemma generate_response_keeps (P : State L -> Prop) prompt n :
  (forall s s', same_generation L s s' -> P s -> P s') ->
  (forall s, P s -> P (snd (load_generation_model L s))) ->
  forall s, P s -> P (snd (generate_response L prompt n s)).
Proof.
  intros Hsame Hload s Hs. apply Hload in Hs.
  unfold generate_response. unfold_monad.
  destruct (load_generation_model L s) as [[[[tok m] flag]|e] s1]; simpl in *;
    [|exact Hs].
  repeat (case_match; simpl in *; simplify_eq);
    (eapply Hsame; [|exact Hs]); repeat split.
Qed.

(** ... and by every handler. *)
Lemma handler_keeps (P : State L -> Prop) :
  (forall s s', same_generation L s s' -> P s -> P s') ->
  (forall s, P s -> P (snd (load_generation_model L s))) ->
  forall r s, P s -> P (snd (handler L r s)).
Proof.
  intros Hsame Hload r s Hs.
  assert (Hlog : forall c, P (log L c s))
    by (intros c; eapply Hsame; [|exact Hs]; repeat split).
  destruct r as [file|data|data]; simpl.
  - eapply Hsame; [apply upload_pdf_same_generation | exact Hs].
  - unfold ask_question. unfold_monad.
    destruct (vectorstore s) as [vs|]; [|exact Hs]. cbv beta iota zeta.
    destruct (similarity_search L vs _ 6) as [docs|]; simpl; [|apply Hlog].
    destruct (is_empty docs); [apply Hlog|].
    match goal with
    | |- context [generate_response L ?p ?n ?s0] =>
        pose proof (generate_response_keeps P p n Hsame Hload s0 (Hlog _)) as Hg;
        destruct (generate_response L p n s0) as [[text|e] s1]
    end; exact Hg.
  - unfold summarize_pdf. unfold_monad.
    destruct (vectorstore s) as [vs|]; [|exact Hs]. cbv beta iota zeta.
    destruct (similarity_search L vs _ 8) as [docs|]; simpl; [|apply Hlog].
    match goal with
    | |- context [generate_response L ?p ?n ?s0] =>
        pose proof (generate_response_keeps P p n Hsame Hload s0 (Hlog _)) as Hg;
        destruct (generate_response L p n s0) as [[text|e] s1]
    end; exact Hg.
Qed.

Lemma load_generation_model_tokenizer_recorded s :
  tokenizer_recorded L s -> tokenizer_recorded L (snd (load_generation_model L s)).
Proof.
  intros Hs. unfold load_generation_model. unfold_monad. simpl.
  destruct (generation_model s) eqn:Hm; [exact Hs|].
  destruct (AutoConfig_from_pretrained L (HF_GENERATION_MODEL L)) as [cfg|]; simpl;
    [|intros m; simpl; congruence].
  destruct (AutoTokenizer_from_pretrained L (HF_GENERATION_MODEL L)) as [tok|]; simpl;
    [|intros m; simpl; congruence].
  assert (Hgoal : forall s' : State L,
    generation_tokenizer s' = Some tok -> tokenizer_recorded L s').
  { intros s' Ht m _. rewrite Ht. eauto. }
  repeat (case_match; simpl in *; simplify_eq; try (apply Hgoal; reflexivity)).
Qed.

Lemma reachable_tokenizer_recorded s : reachable L s -> tokenizer_recorded L s.
Proof.
  apply reachable_ind.
  - intros disk m Hm. discriminate.
  - apply handler_keeps.
    + intros s0 s' (Ht & Hm & _) Hs0 m Hm'. rewrite Ht. apply (Hs0 m). congruence.
    + apply load_generation_model_tokenizer_recorded.
Qed.

(** The only [TypeError] of [generate_response] is a missing tokenizer. *)
Lemma generate_response_TypeError prompt n s s' :
  generate_response L prompt n s = (Raise TypeError, s') ->
  exists m flag s1, load_generation_model L s = (Return (None, m, flag), s1).
Proof.
  unfold generate_response. unfold_monad.
  destruct (load_generation_model L s) as [[[[tok m] flag]|e] s1] eqn:Hload; simpl.
  - destruct tok as [tok|]; [|eauto].
    repeat (case_match; simpl in *; simplify_eq); intros; simplify_eq.
  - intros [= -> ->].
    destruct (generation_model s) eqn:Hm.
    + rewrite (load_generation_model_cached L s _ Hm) in Hload. discriminate.
    + destruct (load_generation_model_raise L s _ _ Hm Hload)
        as [(_ & c & ? & _) | (? & _)]; discriminate.
Qed.

(** With a model stored, generating changes no generation global and makes
    no loading call. *)
Lemma generate_response_loaded prompt n s m :
  generation_model s = Some m ->
  same_generation L s (snd (generate_response L prompt n s))
  /\ List.filter is_load_call (calls (snd (generate_response L prompt n s)))
     = List.filter is_load_call (calls s).
Proof.
  intros Hm. unfold generate_response. unfold_monad.
  rewrite (load_generation_model_cached L s m Hm). simpl.
  repeat (case_match; simpl in *; simplify_eq);
    repeat split; simpl; rewrite ?List.filter_app; simpl;
    rewrite ?app_nil_r; reflexivity.
Qed.

Lemma handler_loaded r s m :
  generation_model s = Some m ->
  same_generation L s (snd (handler L r s))
  /\ List.filter is_load_call (calls (snd (handler L r s)))
     = List.filter is_load_call (calls s).
Proof.
  intros Hm. destruct r as [file|data|data]; simpl.
  - pose proof (upload_pdf_result L file s) as Hup.
    destruct Hup; repeat split; simpl; rewrite ?List.filter_app; simpl;
      rewrite ?app_nil_r; reflexivity.
  - unfold ask_question. unfold_monad.
    destruct (vectorstore s) as [vs|]; [|repeat split]. cbv beta iota zeta.
    assert (Hlog : forall c, is_load_call c = false ->
      List.filter is_load_call (calls (log L c s)) = List.filter is_load_call (calls s)).
    { intros c Hc. simpl. rewrite List.filter_app. simpl. rewrite Hc.
      apply app_nil_r. }
    destruct (similarity_search L vs _ 6) as [docs|]; simpl fst; simpl snd;
      cbv beta iota; [|split; [repeat split | apply Hlog; reflexivity]].
    destruct (is_empty docs); [split; [repeat split | apply Hlog; reflexivity]|].
    match goal with
    | |- context [generate_response L ?p ?n ?s0] =>
        destruct (generate_response_loaded p n s0 m Hm) as [Hsame Hcalls];
        destruct (generate_response L p n s0) as [[text|e] s1]
    end; simpl in *; (split; [exact Hsame|]); rewrite Hcalls;
      apply Hlog; reflexivity.
  - unfold summarize_pdf. unfold_monad.
    destruct (vectorstore s) as [vs|]; [|repeat split]. cbv beta iota zeta.
    assert (Hlog : forall c, is_load_call c = false ->
      List.filter is_load_call (calls (log L c s)) = List.filter is_load_call (calls s)).
    { intros c Hc. simpl. rewrite List.filter_app. simpl. rewrite Hc.
      apply app_nil_r. }
    destruct (similarity_search L vs _ 8) as [docs|]; simpl fst; simpl snd;
      cbv beta iota; [|split; [repeat split | apply Hlog; reflexivity]].
    match goal with
    | |- context [generate_response L ?p ?n ?s0] =>
        destruct (generate_response_loaded p n s0 m Hm) as [Hsame Hcalls];
        destruct (generate_response L p n s0) as [[text|e] s1]
    end; simpl in *; (split; [exact Hsame|]); rewrite Hcalls;
      apply Hlog; reflexivity.
Qed.

Lemma run_loaded rs s m :
  generation_model s = Some m ->
  same_generation L s (snd (run L rs s))
  /\ List.filter is_load_call (calls (snd (run L rs s)))
     = List.filter is_load_call (calls s).
Proof.
  revert s. induction rs as [|r rs IH]; intros s Hm; [repeat split|].
  rewrite run_cons. simpl. rewrite serve_eq. simpl.
  destruct (handler_loaded r s m Hm) as [Hsame Hcalls].
  assert (Hm' : generation_model (snd (handler L r s)) = Some m)
    by (destruct Hsame as (_ & -> & _); exact Hm).
  destruct (IH _ Hm') as [Hsame' Hcalls']. split.
  - eapply same_generation_trans; eassumption.
  - congruence.
Qed.

(** Without an index, a request that is not a successful upload leaves the
    model unloaded. *)
Lemma serve_unloaded r s :
  vectorstore s = None -> generation_model s = None ->
  upload_succeeded (r, fst (serve L r s)) = false ->
  vectorstore (snd (serve L r s)) = None
  /\ generation_model (snd (serve L r s)) = None.
Proof.
  intros Hvs Hm Hr. split.
  - rewrite (serve_vectorstore L r s Hr). exact Hvs.
  - rewrite serve_eq. simpl. destruct r as [file|data|data]; simpl.
    + destruct (upload_pdf_same_generation L file s) as (_ & -> & _). exact Hm.
    + rewrite (ask_question_no_index L data s Hvs). exact Hm.
    + rewrite (summarize_pdf_no_index L data s Hvs). exact Hm.
Qed.

Lemma run_unloaded rs s :
  vectorstore s = None -> generation_model s = None ->
  existsb upload_succeeded (combine rs (fst (run L rs s))) = false ->
  generation_model (snd (run L rs s)) = None.
Proof.
  revert s. induction rs as [|r rs IH]; intros s Hvs Hm; [intros _; exact Hm|].
  rewrite run_cons. simpl. intros [Hr Hrs]%orb_false_elim.
  destruct (serve_unloaded r s Hvs Hm Hr) as [Hvs' Hm'].
  apply IH; assumption.
Qed.

End Lifecycle.

(** *** Uploads *)

(** X2 (a failed upload changes no global).  However [/upload] fails, with
    HTTP 400 or with an exception of a library that the framework turns into
    a 500, the index and the generation globals are what they were, and
    [/ask] and [/summarize] answer afterwards as they would have before. *)
Theorem upload_pdf_exception_keeps_globals
    (L : Library) (file : UploadFile) (s s' : State L) e :
  upload_pdf L file s = (Raise e, s') ->
  vectorstore s' = vectorstore s
  /\ same_generation L s s'
  /\ (forall data, fst (ask_question L data s') = fst (ask_question L data s))
  /\ (forall data, fst (summarize_pdf L data s') = fst (summarize_pdf L data s)).
Proof.
  intros Hrun. pose proof (upload_pdf_raise_agree L file s e) as Hagree.
  rewrite Hrun in Hagree. specialize (Hagree eq_refl). simpl in Hagree.
  split; [apply Hagree|]. split; [apply Hagree|]. split; intros data.
  - apply (respects_ask_question L data s s' Hagree).
  - apply (respects_summarize_pdf L data s s' Hagree).
Qed.

Lemma upload_pdf_exception_keeps_globals_witness :
  let L := Faulty.library false true true false true (lit "ok") in
  let s := set_vectorstore L (Some [{| page_content := lit "hi"; metadata := [] |}])
             (init L ∅) in
  let s' := snd (upload_pdf L Toy.a_pdf s) in
  fst (upload_pdf L Toy.a_pdf s)
  = Raise (LibraryError (call_PyPDFLoader_load (lit "temp_a.pdf")))
  /\ vectorstore s' = vectorstore s
  /\ fst (ask_question L {| question := lit "Why?" |} s')
     = fst (ask_question L {| question := lit "Why?" |} s).
Proof.
  intros L s s'.
  destruct (upload_pdf_exception_keeps_globals L Toy.a_pdf s s'
              (LibraryError (call_PyPDFLoader_load (lit "temp_a.pdf"))) eq_refl)
    as (Hvs & _ & Hask & _).
  split; [reflexivity|]. split; [exact Hvs | apply Hask].
Defined.



(** X16 (an upload that succeeds).  When the name ends in ".pdf", the file
    can be opened, the loader and the splitter return at least one chunk and
    the index is built, [/upload] answers 200 with the file name as
    [doc_id], the index is the one built, and the library was called five
    times: open, write, load, split, index. *)
Theorem upload_pdf_succeeds
    (L : Library) (file : UploadFile) (s : State L) docs chunks vs :
  endswith (filename file) (lit ".pdf") = true ->
  open_wb L (lit "temp_" ++ filename file) = Some tt ->
  PyPDFLoader_load L (lit "temp_" ++ filename file) (content file) = Some docs ->
  split_documents L 800 150 docs = Some chunks ->
  chunks <> [] ->
  FAISS_from_documents L chunks (embedding_model L) = Some vs ->
  let path := lit "temp_" ++ filename file in
  let s' := snd (serve L (POST_upload file) s) in
  fst (serve L (POST_upload file) s)
  = {| status := 200; body := [("doc_id"%string, filename file)] |}
  /\ vectorstore s' = Some vs
  /\ same_generation L s s'
  /\ files s' = <[path := content file]> (files s)
  /\ calls s'
     = calls s ++ [call_open_wb path; call_write path (content file);
                   call_PyPDFLoader_load path; call_split_documents docs;
                   call_FAISS_from_documents chunks].
Proof.
  intros Hpdf Hopen Hload Hsplit Hne Hvs path s'. subst s' path.
  rewrite serve_eq. simpl.
  pose proof (upload_pdf_result L file s) as Hup.
  destruct Hup; unfold file_location in *; try congruence.
  assert (docs0 = docs) as -> by congruence.
  assert (chunks0 = chunks) as -> by congruence.
  assert (vs0 = vs) as -> by congruence.
  simpl. repeat split.
  - apply insert_insert_eq.
  - rewrite <- !app_assoc. reflexivity.
Qed.

Lemma upload_pdf_succeeds_witness :
  let L := Toy.library true (lit "ok") in
  fst (serve L (POST_upload Toy.a_pdf) (init L ∅))
  = {| status := 200; body := [("doc_id"%string, lit "a.pdf")] |}.
Proof.
  intros L.
  apply (upload_pdf_succeeds L Toy.a_pdf (init L ∅)
           [{| page_content := lit "hi";
               metadata := [(lit "source", lit "temp_a.pdf")] |}]
           [{| page_content := lit "hi";
               metadata := [(lit "source", lit "temp_a.pdf")] |}]
           [{| page_content := lit "hi";
               metadata := [(lit "source", lit "temp_a.pdf")] |}]);
    try reflexivity.
  discriminate.
Defined.

(** X9 (the last upload wins).  After a successful upload, whatever was
    uploaded before it, the index is the one of that file alone, and [/ask]
    and [/summarize] answer as if it had been the only upload. *)
Theorem last_upload_wins
    (L : Library) (first second : UploadFile) (s : State L) d :
  let s1 := snd (upload_pdf L first s) in
  fst (upload_pdf L second s1) = Return d ->
  let s2 := snd (upload_pdf L second s1) in
  let only := snd (upload_pdf L second s) in
  fst (upload_pdf L second s) = Return d
  /\ vectorstore s2 = vectorstore only
  /\ (forall data, fst (ask_question L data s2) = fst (ask_question L data only))
  /\ (forall data, fst (summarize_pdf L data s2) = fst (summarize_pdf L data only)).
Proof.
  intros s1 Hsecond s2 only. subst s2 only.
  pose proof (upload_pdf_same_generation L first s) as Hgen1. fold s1 in Hgen1.
  pose proof (upload_pdf_result L second s1) as Hup1.
  pose proof (upload_pdf_result L second s) as Hup.
  rewrite Hsecond in Hup1.
  assert (Hagree : agree L (snd (upload_pdf L second s))
                     (snd (upload_pdf L second s1))
                   /\ fst (upload_pdf L second s) = Return d).
  { inversion Hup1
      as [| | | | | |docs chunks vs Hpdf Hopen Hload Hsplit Hne Hvs Hd Hs2].
    destruct Hup; try congruence.
    assert (docs0 = docs) as -> by congruence.
    assert (chunks0 = chunks) as -> by congruence.
    assert (vs0 = vs) as -> by congruence.
    split; [|reflexivity]. split; [reflexivity|]. exact Hgen1. }
  destruct Hagree as [Hagree Hfst].
  split; [exact Hfst|]. split; [apply Hagree|]. split; intros data.
  - apply (respects_ask_question L data _ _ Hagree).
  - apply (respects_summarize_pdf L data _ _ Hagree).
Qed.

Lemma last_upload_wins_witness :
  let L := Toy.library true (lit "ok") in
  let other := {| filename := lit "z.pdf"; content := [Byte.x7a] |} in
  let s2 := snd (upload_pdf L Toy.a_pdf (snd (upload_pdf L other (init L ∅)))) in
  vectorstore s2 = vectorstore (Toy.indexed true (lit "ok")).
Proof.
  intros L other s2.
  refine (proj1 (proj2 (last_upload_wins L other Toy.a_pdf (init L ∅)
                          [("doc_id"%string, lit "a.pdf")] _))).
  vm_compute. reflexivity.
Defined.

(** *** Questions and summaries *)

(** X4 (questions and summaries keep the index).  Whatever they return,
    an answer, a summary or an exception, [/ask] and [/summarize] leave the
    global index as it was: only [/upload] assigns it. *)
Theorem queries_keep_index
    (L : Library) (data : AskRequest) (sdata : SummaryRequest) (s : State L) :
  vectorstore (snd (ask_question L data s)) = vectorstore s
  /\ vectorstore (snd (summarize_pdf L sdata s)) = vectorstore s.
Proof.
  split; [apply keeps_index_ask_question | apply keeps_index_summarize_pdf].
Qed.

Lemma queries_keep_index_witness :
  let L := Toy.library true (lit "ok") in
  let s := Toy.indexed true (lit "ok") in
  vectorstore (snd (summarize_pdf L Build_SummaryRequest s)) = vectorstore s.
Proof.
  intros L s.
  apply (proj2 (queries_keep_index L {| question := lit "Why?" |}
                  Build_SummaryRequest s)).
Defined.

(** X7 (every answer is trimmed).  Whatever path [/ask] takes to a 200
    response, the answer has no two whitespace characters in a row and
    neither starts nor ends with whitespace; every summary [/summarize]
    returns neither starts nor ends with whitespace. *)
Theorem returned_texts_are_trimmed
    (L : Library) (data : AskRequest) (sdata : SummaryRequest) (s : State L) :
  (forall d s', ask_question L data s = (Return d, s') ->
     exists answer,
       d = [("answer"%string, answer)]
       /\ no_space_run answer = true
       /\ starts_space answer = false /\ ends_space answer = false)
  /\ (forall d s', summarize_pdf L sdata s = (Return d, s') ->
        exists summary,
          d = [("summary"%string, summary)]
          /\ starts_space summary = false /\ ends_space summary = false).
Proof.
  split; intros d s'.
  - unfold ask_question. unfold_monad.
    destruct (vectorstore s) as [vs|]; cbv beta iota zeta.
    2:{ intros [= <- <-]. eexists. split; [reflexivity|]. repeat split. }
    destruct (similarity_search L vs _ 6) as [docs|]; simpl; [|discriminate].
    destruct (is_empty docs).
    { intros [= <- <-]. eexists. split; [reflexivity|]. repeat split. }
    destruct (generate_response L _ 300 _) as [[text|e] s1]; [|discriminate].
    intros [= <- <-]. eexists. split; [reflexivity|].
    apply strip_re_sub_spaces_normal.
  - unfold summarize_pdf. unfold_monad.
    destruct (vectorstore s) as [vs|]; cbv beta iota zeta.
    2:{ intros [= <- <-]. eexists. split; [reflexivity|]. repeat split. }
    destruct (similarity_search L vs _ 8) as [docs|]; simpl; [|discriminate].
    destruct (generate_response L _ 350 _) as [[text|e] s1] eqn:Hgen;
      [|discriminate].
    intros [= <- <-]. exists text. split; [reflexivity|].
    destruct (generate_response_returns_stripped L _ _ _ _ _ Hgen) as (raw & ->).
    split; [apply starts_space_strip | apply ends_space_strip].
Qed.

Lemma returned_texts_are_trimmed_witness :
  let L := Toy.library true (lit "  - two   bytes  ") in
  exists summary,
    [("summary"%string, lit "- two   bytes")] = [("summary"%string, summary)]
    /\ starts_space summary = false /\ ends_space summary = false.
Proof.
  intros L.
  apply (proj2 (returned_texts_are_trimmed L {| question := [] |}
                  Build_SummaryRequest
                  (Toy.indexed true (lit "  - two   bytes  ")))
           _ (snd (summarize_pdf L Build_SummaryRequest
                     (Toy.indexed true (lit "  - two   bytes  "))))).
  vm_compute. reflexivity.
Defined.

(** X13 (normalizing an answer keeps its text).  The answer [/ask] produces
    by generation has the non-whitespace characters of the generated text,
    all of them and in the same order; it is never longer than that text,
    and normalizing it again changes nothing. *)
Theorem ask_question_answer_keeps_text
    (L : Library) (data : AskRequest) (s s' : State L) vs docs d :
  vectorstore s = Some vs ->
  similarity_search L vs (strip (question data)) 6 = Some docs ->
  docs <> [] ->
  ask_question L data s = (Return d, s') ->
  exists text answer,
    fst (generate_response L
           (ask_prompt (join (NL ++ NL) (map page_content docs))
              (strip (question data))) 300
           (log L (call_similarity_search (strip (question data)) 6) s))
    = Return text
    /\ d = [("answer"%string, answer)]
    /\ non_space answer = non_space text
    /\ length answer <= length text
    /\ strip (re_sub_spaces answer) = answer.
Proof.
  intros Hvs Hdocs Hne Hask.
  rewrite (ask_question_generates L data s vs docs Hvs Hdocs Hne) in Hask.
  cbv zeta in Hask.
  destruct (generate_response L _ 300 _) as [[text|e] s1]; simpl in Hask;
    [|discriminate].
  injection Hask as <- <-.
  exists text, (strip (re_sub_spaces text)).
  split; [reflexivity|]. split; [reflexivity|]. split; [|split].
  - rewrite non_space_strip. apply non_space_re_sub_spaces.
  - pose proof (strip_length (re_sub_spaces text)).
    pose proof (re_sub_spaces_length text). lia.
  - apply strip_re_sub_spaces_idemp.
Qed.

Lemma ask_question_answer_keeps_text_witness :
  let L := Toy.library false (lit "  it   has 4  pages ") in
  exists text answer,
    fst (generate_response L
           (ask_prompt (join (NL ++ NL) [lit "hi"]) (lit "How long?")) 300
           (log L (call_similarity_search (lit "How long?") 6)
              (Toy.indexed false (lit "  it   has 4  pages "))))
    = Return text
    /\ [("answer"%string, lit "it has 4 pages")] = [("answer"%string, answer)]
    /\ non_space answer = non_space text
    /\ length answer <= length text
    /\ strip (re_sub_spaces answer) = answer.
Proof.
  intros L.
  apply (ask_question_answer_keeps_text L {| question := lit " How long?" |}
           (Toy.indexed false (lit "  it   has 4  pages "))
           (snd (ask_question L {| question := lit " How long?" |}
                   (Toy.indexed false (lit "  it   has 4  pages "))))
           [{| page_content := lit "hi";
               metadata := [(lit "source", lit "temp_a.pdf")] |}]
           [{| page_content := lit "hi";
               metadata := [(lit "source", lit "temp_a.pdf")] |}]);
    [reflexivity | reflexivity | discriminate | vm_compute; reflexivity].
Defined.

Lemma join_contains (sep : str) (parts : list str) (p : str) :
  In p parts -> exists pre post, join sep parts = pre ++ p ++ post.
Proof.
  induction parts as [|q parts IH]; [intros []|].
  intros [<- | Hin].
  - destruct parts as [|r parts].
    + exists [], []. simpl. rewrite app_nil_r. reflexivity.
    + exists [], (sep ++ join sep (r :: parts)). reflexivity.
  - destruct parts as [|r parts]; [destruct Hin|].
    destruct (IH Hin) as (pre & post & Heq).
    exists (q ++ sep ++ pre), post.
    change (join sep (q :: r :: parts)) with (q ++ sep ++ join sep (r :: parts)).
    rewrite Heq, <- !app_assoc. reflexivity.
Qed.

(** X14 (what a prompt contains).  The text of every retrieved chunk is in
    the prompt of [/ask] and in the prompt of [/summarize], unchanged and in
    one piece, and so is the question in the prompt of [/ask]. *)
Theorem prompts_contain_chunks (docs : list Document) (query : str) (doc : Document) :
  In doc docs ->
  let context := join (NL ++ NL) (map page_content docs) in
  (exists pre post, ask_prompt context query = pre ++ page_content doc ++ post)
  /\ (exists pre post, summarize_prompt context = pre ++ page_content doc ++ post)
  /\ (exists pre post, ask_prompt context query = pre ++ query ++ post).
Proof.
  intros Hin context.
  destruct (join_contains (NL ++ NL) (map page_content docs) (page_content doc))
    as (pre & post & Heq); [apply in_map, Hin|].
  subst context. unfold ask_prompt, summarize_prompt. rewrite Heq.
  split; [|split].
  - exists (lit "You are a helpful assistant answering ONLY from the context below."
            ++ NL ++ NL ++ lit "Context:" ++ NL ++ pre),
           (post ++ NL ++ NL ++ lit "Question: " ++ query ++ NL ++ lit "Answer:").
    repeat rewrite <- app_assoc. reflexivity.
  - exists (lit "Summarize the document in 6-8 concise bullet points."
            ++ NL ++ NL ++ lit "Context:" ++ NL ++ pre),
           (post ++ NL ++ NL ++ lit "Summary:").
    repeat rewrite <- app_assoc. reflexivity.
  - exists (lit "You are a helpful assistant answering ONLY from the context below."
            ++ NL ++ NL ++ lit "Context:" ++ NL
            ++ (pre ++ page_content doc ++ post) ++ NL ++ NL ++ lit "Question: "),
           (NL ++ lit "Answer:").
    repeat rewrite <- app_assoc. reflexivity.
Qed.

Lemma prompts_contain_chunks_witness :
  exists pre post,
    summarize_prompt
      (join (NL ++ NL) (map page_content
         [{| page_content := lit "one"; metadata := [] |};
          {| page_content := lit "two"; metadata := [] |}]))
    = pre ++ lit "two" ++ post.
Proof.
  apply (proj1 (proj2 (prompts_contain_chunks
           [{| page_content := lit "one"; metadata := [] |};
            {| page_content := lit "two"; metadata := [] |}]
           [] {| page_content := lit "two"; metadata := [] |}
           (or_intror (or_introl eq_refl))))).
Defined.

(** *** The model and the process *)

(** X5 (a load that fails).  When loading the model raises, either no model
    is stored, and the next call starts loading again with the
    configuration; or the failure was the move to the GPU, and then the
    model as it was loaded, not moved and not switched to evaluation mode,
    is stored and is what every later call returns. *)
Theorem load_generation_model_failure (L : Library) (s s1 : State L) e :
  generation_model s = None ->
  load_generation_model L s = (Raise e, s1) ->
  (generation_model s1 = None
   /\ exists rest,
        calls (snd (load_generation_model L s1))
        = calls s1 ++ call_AutoConfig (HF_GENERATION_MODEL L) :: rest)
  \/ (e = LibraryError call_to_cuda
      /\ exists cfg tok m,
           AutoConfig_from_pretrained L (HF_GENERATION_MODEL L) = Some cfg
           /\ from_pretrained_for L (default false (is_encoder_decoder L cfg))
                (HF_GENERATION_MODEL L) = Some m
           /\ to_cuda L m = None
           /\ generation_model s1 = Some m
           /\ load_generation_model L s1
              = (Return (Some tok, m, default false (is_encoder_decoder L cfg)), s1)).
Proof.
  intros Hnone Hload.
  destruct (load_generation_model_raise L s e s1 Hnone Hload)
    as [(Hm1 & _) | (He & _ & cfg & tok & m & Hcfg & Hm & Hto & Ht1 & Hm1 & Hf1)].
  - left. split; [exact Hm1|].
    unfold load_generation_model. unfold_monad. simpl. rewrite Hm1.
    repeat (case_match; simpl in *; simplify_eq);
      unfold log; simpl; repeat rewrite <- app_assoc; simpl;
      eexists; reflexivity.
  - right. split; [exact He|]. exists cfg, tok, m.
    repeat (split; [assumption|]).
    rewrite (load_generation_model_cached L s1 m Hm1), Ht1, Hf1. reflexivity.
Qed.

Lemma load_generation_model_failure_witness :
  let L := Faulty.library true true true true false (lit "ok") in
  let s1 := snd (load_generation_model L (init L ∅)) in
  fst (load_generation_model L (init L ∅)) = Raise (LibraryError call_to_cuda)
  /\ load_generation_model L s1 = (Return (Some tt, false, true), s1).
Proof.
  intros L s1. split; [reflexivity|].
  destruct (load_generation_model_failure L (init L ∅) s1
              (LibraryError call_to_cuda) eq_refl eq_refl)
    as [(Hm1 & _) | (_ & cfg & tok & m & Hcfg & Hm & _ & _ & Hagain)].
  - discriminate Hm1.
  - injection Hcfg as <-. injection Hm as <-. destruct tok. exact Hagain.
Defined.

(** X6 (the tokenizer is there when the model is).  In every state the
    service can reach, a stored model comes with a stored tokenizer and with
    the flag of its configuration; so no handler ever fails for calling a
    missing tokenizer. *)
Theorem reachable_model_has_tokenizer (L : Library) (s : State L) :
  reachable L s ->
  (forall m, generation_model s = Some m ->
     exists tok cfg,
       generation_tokenizer s = Some tok
       /\ AutoConfig_from_pretrained L (HF_GENERATION_MODEL L) = Some cfg
       /\ generation_is_encoder_decoder s = default false (is_encoder_decoder L cfg))
  /\ (forall r, fst (handler L r s) <> Raise TypeError).
Proof.
  intros Hreach.
  pose proof (reachable_tokenizer_recorded L s Hreach) as Htok.
  pose proof (reachable_flag_recorded L s Hreach) as Hflag.
  split.
  - intros m Hm. destruct (Htok m Hm) as [tok Ht].
    destruct (Hflag m Hm) as (cfg & Hcfg & Hf). eauto.
  - assert (Hgen : forall prompt n c,
      fst (generate_response L prompt n (log L c s)) <> Raise TypeError).
    { intros prompt n c Hraise.
      destruct (generate_response L prompt n (log L c s)) as [o s'] eqn:Hrun.
      simpl in Hraise. subst o.
      destruct (generate_response_TypeError L _ _ _ _ Hrun) as (m & flag & s1 & Hload).
      destruct (load_generation_model_stored L _ _ _ _ _ Hload) as (Ht1 & Hm1 & _).
      assert (Hrec : tokenizer_recorded L (log L c s)) by exact Htok.
      apply load_generation_model_tokenizer_recorded in Hrec.
      rewrite Hload in Hrec. destruct (Hrec m Hm1) as [tok Ht]. simpl in Ht.
      congruence. }
    intros [file|data|data]; simpl.
    + pose proof (upload_pdf_result L file s) as Hup. destruct Hup; discriminate.
    + unfold ask_question. unfold_monad.
      destruct (vectorstore s) as [vs|]; [|discriminate]. cbv beta iota zeta.
      destruct (similarity_search L vs _ 6) as [docs|]; simpl; [|discriminate].
      destruct (is_empty docs); [discriminate|].
      match goal with
      | |- context [generate_response L ?p ?n (log L ?c s)] =>
          specialize (Hgen p n c);
          destruct (generate_response L p n (log L c s)) as [[text|e] s1]
      end; simpl in *; [discriminate|];
        intros [= ->]; apply Hgen; reflexivity.
    + unfold summarize_pdf. unfold_monad.
      destruct (vectorstore s) as [vs|]; [|discriminate]. cbv beta iota zeta.
      destruct (similarity_search L vs _ 8) as [docs|]; simpl; [|discriminate].
      match goal with
      | |- context [generate_response L ?p ?n (log L ?c s)] =>
          specialize (Hgen p n c);
          destruct (generate_response L p n (log L c s)) as [[text|e] s1]
      end; simpl in *; [discriminate|];
        intros [= ->]; apply Hgen; reflexivity.
Qed.

Lemma reachable_model_has_tokenizer_witness :
  let L := Toy.library true (lit "ok") in
  let s := snd (run L [POST_upload Toy.a_pdf; POST_ask {| question := lit "Why?" |}]
                  (init L ∅)) in
  fst (handler L (POST_summarize Build_SummaryRequest) s) <> Raise TypeError.
Proof.
  intros L s.
  apply (proj2 (reachable_model_has_tokenizer L s
                  (ex_intro _ ∅ (ex_intro _ _ eq_refl)))).
Defined.



(** X11 (a loaded model is kept).  Once a model is stored, no sequence of
    requests replaces or unloads it, the tokenizer or the flag, and none
    makes another loading call. *)
Theorem loaded_model_is_kept
    (L : Library) (rs : list request) (s : State L) m :
  generation_model s = Some m ->
  let s' := snd (run L rs s) in
  generation_model s' = Some m
  /\ generation_tokenizer s' = generation_tokenizer s
  /\ generation_is_encoder_decoder s' = generation_is_encoder_decoder s
  /\ List.filter is_load_call (calls s') = List.filter is_load_call (calls s).
Proof.
  intros Hm s'. subst s'.
  destruct (run_loaded L rs s m Hm) as [(Ht & Hm' & Hf) Hcalls].
  repeat split; congruence.
Qed.

Lemma loaded_model_is_kept_witness :
  let L := Toy.library true (lit "ok") in
  let s := snd (ask_question L {| question := lit "Why?" |}
                  (Toy.indexed true (lit "ok"))) in
  let rs := [POST_summarize Build_SummaryRequest;
             POST_upload {| filename := lit "z.pdf"; content := [Byte.x7a] |};
             POST_ask {| question := lit "And?" |}] in
  List.filter is_load_call (calls (snd (run L rs s)))
  = List.filter is_load_call (calls s).
Proof.
  intros L s rs.
  refine (proj2 (proj2 (proj2 (loaded_model_is_kept L rs s tt _)))).
  vm_compute. reflexivity.
Defined.

(** X12 (no model before a document).  As long as no upload has been
    answered with 200, the generation model is not loaded, whatever
    questions and summaries were asked. *)
Theorem model_not_loaded_before_index
    (L : Library) (disk : gmap str bytes) (rs : list request) :
  existsb upload_succeeded (combine rs (fst (run L rs (init L disk)))) = false ->
  generation_model (snd (run L rs (init L disk))) = None.
Proof.
  intros Hnone. apply run_unloaded; [reflexivity | reflexivity | exact Hnone].
Qed.

Lemma model_not_loaded_before_index_witness :
  let L := Toy.library true (lit "ok") in
  let rs := [POST_ask {| question := lit "Why?" |};
             POST_upload {| filename := lit "empty.pdf"; content := [] |};
             POST_summarize Build_SummaryRequest] in
  generation_model (snd (run L rs (init L ∅))) = None.
Proof.
  intros L rs.
  apply (model_not_loaded_before_index L ∅ rs). reflexivity.
Defined.

(** X15 (a question answered by a loaded model).  With an index set, a
    model and a tokenizer stored, a search that finds chunks and a library
    that does not raise, [/ask] answers 200 with the decoded text, stripped,
    its whitespace runs collapsed, stripped again; it makes exactly four
    library calls, in this order: the search, the tokenizer, the
    generation, the decoding; and it changes no global. *)
Theorem ask_question_with_loaded_model
    (L : Library) (data : AskRequest) (s : State L)
    vs docs tok m enc input_ids ids text :
  vectorstore s = Some vs ->
  generation_model s = Some m ->
  generation_tokenizer s = Some tok ->
  let query := strip (question data) in
  similarity_search L vs query 6 = Some docs ->
  docs <> [] ->
  let prompt := ask_prompt (join (NL ++ NL) (map page_content docs)) query in
  tokenizer_call L tok prompt 2048 = Some enc ->
  (generation_is_encoder_decoder s = false ->
   dict_get enc "input_ids" = Some input_ids) ->
  let pad := py_or (pad_token_id L tok) (eos_token_id L tok) in
  generate L m enc 300 pad = Some ids ->
  let decoded :=
    if generation_is_encoder_decoder s then ids
    else drop (length input_ids) ids in
  decode L tok decoded = Some text ->
  let s' := snd (serve L (POST_ask data) s) in
  fst (serve L (POST_ask data) s)
  = {| status := 200;
       body := [("answer"%string, strip (re_sub_spaces (strip text)))] |}
  /\ calls s'
     = calls s ++ [call_similarity_search query 6; call_tokenizer prompt 2048;
                   call_generate enc 300 pad; call_decode decoded]
  /\ agree L s s' /\ files s' = files s.
Proof.
  intros Hvs Hm Htok query Hdocs Hne prompt Henc Hids pad Hgen decoded Hdec s'.
  subst s'. rewrite serve_eq. simpl handler.
  rewrite (ask_question_generates L data s vs docs Hvs Hdocs Hne). cbv zeta.
  fold query. fold prompt.
  rewrite (generate_response_ok L (log L (call_similarity_search query 6) s)
             (log L (call_similarity_search query 6) s)
             tok m (generation_is_encoder_decoder s) prompt 300 enc input_ids ids text);
    try assumption.
  - simpl. split; [reflexivity|]. split; [|repeat split].
    rewrite <- !app_assoc. reflexivity.
  - rewrite (load_generation_model_cached L
               (log L (call_similarity_search query 6) s) m Hm).
    simpl. rewrite Htok. reflexivity.
Qed.

Lemma ask_question_with_loaded_model_witness :
  let L := Toy.library true (lit " 4  pages") in
  let s := snd (summarize_pdf L Build_SummaryRequest
                  (Toy.indexed true (lit " 4  pages"))) in
  fst (serve L (POST_ask {| question := lit "How long?" |}) s)
  = {| status := 200; body := [("answer"%string, lit "4 pages")] |}.
Proof.
  intros L s.
  refine (proj1 (ask_question_with_loaded_model L
            {| question := lit "How long?" |} s
            [{| page_content := lit "hi";
                metadata := [(lit "source", lit "temp_a.pdf")] |}]
            [{| page_content := lit "hi";
                metadata := [(lit "source", lit "temp_a.pdf")] |}]
            tt tt
            [("input_ids"%string,
              map Z.of_N (ask_prompt (join (NL ++ NL) [lit "hi"]) (lit "How long?")))]
            []
            (map Z.of_N (lit " 4  pages"))
            (lit " 4  pages") _ _ _ _ _ _ _ _ _));
    try (vm_compute; reflexivity); try discriminate.
Defined.
